(** * scrape: the output-orchestration engine of [scrape/scrape.py]

    A shallow embedding of [write_to_text], [write_to_pdf], [write_files],
    [get_single_outfilename], [write_single_file], [write_multiple_files]
    and [scrape], with the working directory, the numbered part files, the
    two output streams and the written artifacts as an explicit world that
    is threaded through every call.  Python exceptions are a second kind of
    result that carries the world reached when they were raised. *)

From Stdlib Require Import String Ascii List Bool Arith Lia DecimalString.
Import ListNotations.
Open Scope string_scope.
Open Scope list_scope.

(** ** Python string and list primitives used by the source *)

Module PyStr.

(** [s.endswith(suf)] *)
Fixpoint endswith (s suf : string) : bool :=
  String.eqb s suf ||
  match s with
  | EmptyString => false
  | String _ s' => endswith s' suf
  end.

(** [s.startswith(p)] *)
Definition startswith (s p : string) : bool := String.prefix p s.

(** [sub in s] on strings *)
Fixpoint contains (sub s : string) : bool :=
  String.prefix sub s ||
  match s with
  | EmptyString => false
  | String _ s' => contains sub s'
  end.

(** [x in l] on lists of strings *)
Definition mem (x : string) (l : list string) : bool :=
  existsb (String.eqb x) l.

(** [s.lstrip(c)] for a one-character set *)
Fixpoint lstrip (c : ascii) (s : string) : string :=
  match s with
  | EmptyString => EmptyString
  | String a s' => if Ascii.eqb a c then lstrip c s' else s
  end.

(** [s.rstrip(c)] for a one-character set *)
Fixpoint rstrip (c : ascii) (s : string) : string :=
  match s with
  | EmptyString => EmptyString
  | String a s' =>
      match rstrip c s' with
      | EmptyString => if Ascii.eqb a c then EmptyString else String a EmptyString
      | r => String a r
      end
  end.

(** [s.strip(c)] *)
Definition strip (c : ascii) (s : string) : string := rstrip c (lstrip c s).

(** [s.split(c)] with an explicit one-character separator: the result is
    never empty, and the empty string splits to one empty field. *)
Fixpoint split (c : ascii) (s : string) : list string :=
  match s with
  | EmptyString => [EmptyString]
  | String a s' =>
      if Ascii.eqb a c then EmptyString :: split c s'
      else match split c s' with
           | [] => [String a EmptyString]
           | h :: t => String a h :: t
           end
  end.

(** [sep.join(l)] *)
Fixpoint join (sep : string) (l : list string) : string :=
  match l with
  | [] => EmptyString
  | x :: rest =>
      match rest with
      | [] => x
      | _ :: _ => x ++ sep ++ join sep rest
      end
  end.

(** [l[:-1]] *)
Definition but_last {A} (l : list A) : list A := removelast l.

Definition lower_ascii (a : ascii) : ascii :=
  let n := nat_of_ascii a in
  if Nat.leb 65 n && Nat.leb n 90 then ascii_of_nat (n + 32) else a.

(** [s.lower()] on a string of ASCII characters: the capitals [A] to [Z]
    become small letters and nothing else changes.  Python lowers the
    capitals outside ASCII as well; on a string that holds any, [s.lower()]
    is [str_lower] below.  No such string becomes one of the [valid_types]
    of the command line, which is all the prompt asks of [lower]. *)
Fixpoint lower (s : string) : string :=
  match s with
  | EmptyString => EmptyString
  | String a s' => String (lower_ascii a) (lower s')
  end.

(** Whether every character of [s] is an ASCII character. *)
Fixpoint is_ascii (s : string) : bool :=
  match s with
  | EmptyString => true
  | String a s' => Nat.ltb (nat_of_ascii a) 128 && is_ascii s'
  end.

(** Truth value of a string, of a list *)
Definition truthy (s : string) : bool :=
  match s with EmptyString => false | _ => true end.

Definition nonempty {A} (l : list A) : bool :=
  match l with [] => false | _ :: _ => true end.

(** [l[i]] guarded by [i < len(l)], as the source always does *)
Definition index (l : list string) (i : nat) : string := nth i l EmptyString.

(** ['{0}'.format(n)] for a natural number *)
Definition of_nat (n : nat) : string := NilEmpty.string_of_uint (Nat.to_uint n).

End PyStr.
Import PyStr.

(** ** Program arguments: the [args] dict *)

Record Args := mkArgs {
  query : list string;
  out : option (list string);       (* [None] until [scrape] replaces it by [[]] *)
  single : bool;
  multiple : bool;
  html : bool;
  pdf : bool;
  text : bool;
  print_ : bool;
  quiet : bool;
  crawl_rules : option (list string);  (* args['crawl'] *)
  crawl_all : bool;
  files : list string;
  urls : list string
}.

(** [args['out']] as a list, [None] being falsy and of no use to [len]
    before [scrape] has replaced it. *)
Definition out_list (a : Args) : list string :=
  match out a with Some l => l | None => [] end.

(** [args['crawl'] or args['crawl_all']] *)
Definition crawling (a : Args) : bool :=
  match crawl_rules a with Some (_ :: _) => true | _ => false end || crawl_all a.

Definition set_out (a : Args) (o : option (list string)) : Args :=
  mkArgs (query a) o (single a) (multiple a) (html a) (pdf a) (text a)
         (print_ a) (quiet a) (crawl_rules a) (crawl_all a) (files a) (urls a).
Definition set_single (a : Args) (b : bool) : Args :=
  mkArgs (query a) (out a) b (multiple a) (html a) (pdf a) (text a)
         (print_ a) (quiet a) (crawl_rules a) (crawl_all a) (files a) (urls a).
Definition set_multiple (a : Args) (b : bool) : Args :=
  mkArgs (query a) (out a) (single a) b (html a) (pdf a) (text a)
         (print_ a) (quiet a) (crawl_rules a) (crawl_all a) (files a) (urls a).
Definition set_query (a : Args) (q : list string) : Args :=
  mkArgs q (out a) (single a) (multiple a) (html a) (pdf a) (text a)
         (print_ a) (quiet a) (crawl_rules a) (crawl_all a) (files a) (urls a).
Definition set_files (a : Args) (f : list string) : Args :=
  mkArgs (query a) (out a) (single a) (multiple a) (html a) (pdf a) (text a)
         (print_ a) (quiet a) (crawl_rules a) (crawl_all a) f (urls a).
Definition set_urls (a : Args) (u : list string) : Args :=
  mkArgs (query a) (out a) (single a) (multiple a) (html a) (pdf a) (text a)
         (print_ a) (quiet a) (crawl_rules a) (crawl_all a) (files a) u.

(** ** The world the orchestrator acts on *)

Inductive Format := TextFile | PdfFile.

(** One written artifact: its format, its name and the input files. *)
Definition Artifact : Type := Format * string * list string.

Record World := mkWorld {
  cwd : string;                        (* os.getcwd() *)
  parts : list (string * nat);         (* directory |-> number of part files in it *)
  stdout : list string;                (* lines printed by scrape.py *)
  stderr : list string;                (* sys.stderr.write calls of scrape.py *)
  written : list Artifact              (* artifacts the external writers produced *)
}.

Inductive exn :=
| KeyboardInterrupt
| OSError
| Error (msg : string).

Inductive result (A : Type) :=
| Ok (a : A) (w : World)
| Raise (e : exn) (w : World).
Arguments Ok {A} a w.
Arguments Raise {A} e w.

Definition M (A : Type) : Type := World -> result A.

Definition ret {A} (a : A) : M A := fun w => Ok a w.
Definition raise {A} (e : exn) : M A := fun w => Raise e w.
Definition bind {A B} (m : M A) (k : A -> M B) : M B :=
  fun w => match m w with
           | Ok a w' => k a w'
           | Raise e w' => Raise e w'
           end.

(** [try: m  except (KeyboardInterrupt, Exception) as e: h e] *)
Definition try_except {A} (m : M A) (h : exn -> M A) : M A :=
  fun w => match m w with
           | Ok a w' => Ok a w'
           | Raise e w' => h e w'
           end.

Declare Scope py_scope.
Delimit Scope py_scope with py.
Notation "x <- m ;; k" := (bind m (fun x => k))
  (at level 61, m at next level, right associativity) : py_scope.
Notation "m ;; k" := (bind m (fun _ => k))
  (at level 61, right associativity) : py_scope.
Notation "'when' b 'then' m" := (if b then m else ret tt)
  (at level 60, b at next level, m at next level) : py_scope.
Open Scope py_scope.

(** A stretch of a loop that ended with [True], followed by the next one;
    [False] and exceptions end the loop. *)
Definition and_then (r : result bool) (k : M bool) : result bool :=
  match r with
  | Ok true w1 => k w1
  | Ok false w1 => Ok false w1
  | Raise e w1 => Raise e w1
  end.

Definition world_of {A} (r : result A) : World :=
  match r with Ok _ w => w | Raise _ w => w end.

(** *** Streams and the working directory *)

Definition print (line : string) : M unit :=
  fun w => Ok tt (mkWorld (cwd w) (parts w) (stdout w ++ [line]) (stderr w) (written w)).

Definition stderr_write (line : string) : M unit :=
  fun w => Ok tt (mkWorld (cwd w) (parts w) (stdout w) (stderr w ++ [line]) (written w)).

Definition getcwd : M string := fun w => Ok (cwd w) w.

Definition set_cwd (d : string) (w : World) : World :=
  mkWorld d (parts w) (stdout w) (stderr w) (written w).

(** *** Part files per directory *)

Fixpoint count_in (d : string) (ps : list (string * nat)) : nat :=
  match ps with
  | [] => 0
  | (d', n) :: rest => if String.eqb d' d then n else count_in d rest
  end.

Definition set_count (d : string) (n : nat) (ps : list (string * nat))
  : list (string * nat) :=
  (d, n) :: filter (fun p => negb (String.eqb (fst p) d)) ps.

Definition set_parts (ps : list (string * nat)) (w : World) : World :=
  mkWorld (cwd w) ps (stdout w) (stderr w) (written w).

(** Number of part files in the current working directory. *)
Definition num_part_files (w : World) : nat := count_in (cwd w) (parts w).

(** The line feed that ends every diagnostic. *)
Definition nl : string := String (ascii_of_nat 10) EmptyString.

Definition part_name (i : nat) : string := "PART" ++ of_nat i ++ ".html".

Definition add_artifact (x : Artifact) (w : World) : World :=
  mkWorld (cwd w) (parts w) (stdout w) (stderr w) (written w ++ [x]).

(** ** The collaborators of [scrape.py]: [os], [utils] and [crawl]

    The modules [scrape/utils.py] and [scrape/crawl.py] are not part of the
    sources at hand.  What they answer is left open, as the fields of one
    record; what they do to the part files follows the specification. *)

Record Collab := mkCollab {
  isfile : string -> bool;                      (* os.path.isfile *)
  chdir_ok : string -> bool;                    (* os.chdir succeeds, else OSError *)
  get_domain : string -> string;                (* utils.get_domain *)
  get_outfilename : string -> string -> string; (* utils.get_outfilename *)
  add_url_ext : string -> string;               (* utils.add_url_ext *)
  add_scheme : string -> string;                (* utils.add_scheme *)
  check_scheme : string -> bool;                (* utils.check_scheme *)
  fetch : string -> option string;              (* what utils.get_raw_resp answers *)
  crawl_run : string -> string -> nat * option exn;
      (* pages the crawl of (query, domain) writes, and the error it ends in, if any *)
  parsed_text : string -> list string + exn;    (* what utils.get_parsed_text answers *)
  text_writer : list string -> string -> option exn;  (* error of utils.write_text_file *)
  pdf_writer : list string -> string -> option exn;   (* error of utils.write_pdf_file *)
  unicode_lower : string -> string
      (* what str.lower() gives on a string that is not all ASCII *)
}.

Section Orchestrator.

Variable U : Collab.

(** *** os *)

(** [os.chdir(d)] *)
Definition chdir (d : string) : M unit :=
  fun w => if chdir_ok U d then Ok tt (set_cwd d w) else Raise OSError w.

(** *** utils: the part-file store *)

(** Modelled from the spec: [utils.get_num_part_files] is missing; section
    4.2, [count()] is the number of part files currently present. *)
Definition get_num_part_files : M nat := fun w => Ok (num_part_files w) w.

(** Modelled from the spec: [utils.write_part_file] is missing; section 4.2,
    a fetch appends exactly one new part file per page it writes, the
    numbering being contiguous from 1. *)
Definition write_part_file (a : Args) (q : string) (raw_resp : string) : M unit :=
  fun w => Ok tt (set_parts (set_count (cwd w) (S (num_part_files w)) (parts w)) w).

(** Modelled from the spec: [utils.get_part_filenames] is missing; section
    4.2, [names_in_range(from_exclusive, to_inclusive)] is the ordered
    sequence of part-file names created between two counts. *)
Definition get_part_filenames (curr prev : nat) : list string :=
  map part_name (seq (S prev) (curr - prev)).

(** Modelled from the spec: [utils.remove_part_files] is missing; section
    4.2, [remove_all()] deletes every part file present, is idempotent and
    never fails. *)
Definition remove_part_files : M unit :=
  fun w => Ok tt (set_parts (set_count (cwd w) 0 (parts w)) w).

(** Modelled from the spec: [utils.mkdir_and_cd] is missing; section 4.4,
    the subdirectory named after the domain is created and entered. *)
Definition mkdir_and_cd (domain : string) : M unit :=
  fun w => Ok tt (set_cwd (cwd w ++ "/" ++ domain) w).

(** Modelled from the spec: [utils.get_raw_resp] is missing; section 6,
    [fetch(url) -> raw_content | none], which returns and never raises. *)
Definition get_raw_resp (q : string) : M (option string) := ret (fetch U q).

(** Modelled from the spec: [crawl.crawl] is missing; section 6, it returns
    the ordered list of the part-file names it created, or raises. *)
Definition crawl (a : Args) (q domain : string) : M (list string) :=
  fun w =>
    let '(n, err) := crawl_run U q domain in
    let prev := num_part_files w in
    let w' := set_parts (set_count (cwd w) (prev + n) (parts w)) w in
    match err with
    | None => Ok (get_part_filenames (prev + n) prev) w'
    | Some e => Raise e w'
    end.

(** Modelled from the spec: [utils.get_parsed_text] is missing; section 4.5,
    the external text-extraction collaborator. *)
Definition get_parsed_text (a : Args) (infilename : string) : M (list string) :=
  match parsed_text U infilename with
  | inl ls => ret ls
  | inr e => raise e
  end.

(** Modelled from the spec: [utils.write_text_file] is missing; section 6,
    the writer produces the artifact or fails by a propagating error. *)
Definition write_text_file (a : Args) (infilenames : list string)
           (outfilename : string) : M unit :=
  match text_writer U infilenames outfilename with
  | None => fun w => Ok tt (add_artifact (TextFile, outfilename, infilenames) w)
  | Some e => raise e
  end.

(** Modelled from the spec: [utils.write_pdf_file] is missing; section 6,
    as the text writer. *)
Definition write_pdf_file (a : Args) (infilenames : list string)
           (outfilename : string) : M unit :=
  match pdf_writer U infilenames outfilename with
  | None => fun w => Ok tt (add_artifact (PdfFile, outfilename, infilenames) w)
  | Some e => raise e
  end.

(** *** scrape.py *)

Fixpoint print_lines (ls : list string) : M unit :=
  match ls with
  | [] => ret tt
  | l :: rest => print l ;; print_lines rest
  end.

(** [print_text(args, infilenames)] *)
Fixpoint print_text (a : Args) (infilenames : list string) : M unit :=
  match infilenames with
  | [] => ret tt
  | infilename :: rest =>
      parsed <- get_parsed_text a infilename ;;
      (when nonempty parsed then (print_lines parsed ;; print "")) ;;
      print_text a rest
  end.

(** The name [write_to_text] hands to the writer (lines 100-101). *)
Definition text_outfilename (outfilename : string) : string :=
  if negb (endswith outfilename ".txt") then outfilename ++ ".txt" else outfilename.

(** The name [write_to_pdf] hands to the writer (lines 120-121). *)
Definition pdf_outfilename (outfilename : string) : string :=
  if negb (endswith outfilename ".pdf") then outfilename ++ ".pdf" else outfilename.

(** The handler of [write_to_text] and [write_to_pdf] (lines 104-107). *)
Definition cleanup_and_reraise (a : Args) (e : exn) : M unit :=
  (when nonempty (urls a) then remove_part_files) ;;
  raise e.

(** [write_to_text(args, infilenames, outfilename)] *)
Definition write_to_text (a : Args) (infilenames : list string)
           (outfilename : string) : M unit :=
  let outfilename := text_outfilename outfilename in
  try_except (write_text_file a infilenames outfilename)
             (cleanup_and_reraise a).

(** [write_to_pdf(args, infilenames, outfilename)] *)
Definition write_to_pdf (a : Args) (infilenames : list string)
           (outfilename : string) : M unit :=
  let outfilename := pdf_outfilename outfilename in
  try_except (write_pdf_file a infilenames outfilename)
             (cleanup_and_reraise a).

(** [write_files(args, infilenames, outfilename)] *)
Definition write_files (a : Args) (infilenames : list string)
           (outfilename : string) : M unit :=
  (if print_ a then print_text a infilenames
   else if pdf a then write_to_pdf a infilenames outfilename
   else if text a then write_to_text a infilenames outfilename
   else ret tt) ;;
  when (nonempty (urls a) && negb (html a)) then remove_part_files.

(** ['.'.join(arg.split('.')[:-1])] (lines 154 and 217) *)
Definition strip_extension (arg : string) : string :=
  join "." (but_last (split "." arg)).

(** [s.lower()] (line 154): the small letters of an ASCII string, and the
    Unicode case mapping of Python, left open, on any other string. *)
Definition str_lower (s : string) : string :=
  if is_ascii s then lower s else unicode_lower U s.

(** The body of the loop of [get_single_outfilename]; [None] when the loop
    runs to its end without returning. *)
Fixpoint first_outfilename (a : Args) (qs : list string) : option string :=
  match qs with
  | [] => None
  | arg :: rest =>
      if mem arg (files a) then Some (str_lower (strip_extension arg))
      else match find (fun url => contains (strip "/" arg) url) (urls a) with
           | Some url =>
               let domain := get_domain U url in
               Some (get_outfilename U url domain)
           | None => first_outfilename a rest
           end
  end.

(** [get_single_outfilename(args)] *)
Definition get_single_outfilename (a : Args) : M string :=
  match first_outfilename a (query a) with
  | Some name => ret name
  | None =>
      stderr_write ("Failed to construct a single out filename." ++ nl) ;;
      ret EmptyString
  end.

(** Lines 169-171 and 224-226: announce and enter the domain directory. *)
Definition enter_domain_dir (a : Args) (domain : string) : M unit :=
  (when negb (quiet a) then print ("Storing html files in " ++ domain ++ "/")) ;;
  mkdir_and_cd domain.

(** Lines 180-188 and 233-242: the single page fetch.  [None] stands for
    the [return False] of the enclosing function. *)
Definition fetch_page (a : Args) (q : string) : M (option (list string)) :=
  raw_resp <- get_raw_resp q ;;
  match raw_resp with
  | Some r =>
      prev_part_num <- get_num_part_files ;;
      write_part_file a q r ;;
      let curr_part_num := prev_part_num + 1 in
      ret (Some (get_part_filenames curr_part_num prev_part_num))
  | None => ret None
  end.

(** The [for query in args['query']] loop of [write_single_file];
    [None] stands for its [return False]. *)
Fixpoint gather (a : Args) (domain : string) (qs : list string)
         (infilenames : list string) : M (option (list string)) :=
  match qs with
  | [] => ret (Some infilenames)
  | q :: rest =>
      if mem (strip "/" q) (urls a) then
        if crawling a then
          new <- crawl a q domain ;;
          gather a domain rest (infilenames ++ new)
        else
          r <- fetch_page a q ;;
          match r with
          | Some new => gather a domain rest (infilenames ++ new)
          | None => ret None
          end
      else if mem q (files a) then gather a domain rest (infilenames ++ [q])
      else gather a domain rest infilenames
  end.

(** Lines 165-190 of [write_single_file]: the domain directory and the
    loop.  When [args['urls']] is empty the source leaves [domain] unbound
    and never reads it; it is [""] here. *)
Definition single_inputs (a : Args) : M (option (list string)) :=
  domain <- (if nonempty (urls a) then
               let domain := get_domain U (index (urls a) 0) in
               (when html a then enter_domain_dir a domain) ;;
               ret domain
             else ret EmptyString) ;;
  gather a domain (query a) [].

(** [write_single_file(args, base_dir)] *)
Definition write_single_file (a : Args) (base_dir : string) : M bool :=
  r <- single_inputs a ;;
  match r with
  | None => ret false
  | Some infilenames =>
      (if html a then chdir base_dir
       else if nonempty infilenames then
         outfilename <- (if nonempty (out_list a) then ret (index (out_list a) 0)
                         else get_single_outfilename a) ;;
         when truthy outfilename then write_files a infilenames outfilename
       else remove_part_files) ;;
      ret true
  end.

(** The name chosen at lines 214-217 and 250-253. *)
Definition multiple_outfilename (a : Args) (i : nat) (default : string) : string :=
  if nonempty (out_list a) && Nat.ltb i (length (out_list a))
  then index (out_list a) i else default.

(** The [for i, query in enumerate(args['query'])] loop of
    [write_multiple_files], from index [i] on. *)
Fixpoint multiple_loop (a : Args) (base_dir : string) (i : nat)
         (qs : list string) : M bool :=
  match qs with
  | [] => ret true
  | q :: rest =>
      if mem q (files a) then
        let outfilename := multiple_outfilename a i (strip_extension q) in
        write_files a [q] outfilename ;;
        multiple_loop a base_dir (S i) rest
      else if mem q (urls a) then
        let domain := get_domain U q in
        (when html a then enter_domain_dir a domain) ;;
        r <- (if crawling a then
                new <- crawl a q domain ;; ret (Some new)
              else fetch_page a q) ;;
        match r with
        | None => ret false
        | Some infilenames =>
            (if html a then chdir base_dir
             else if nonempty infilenames then
               let outfilename :=
                 multiple_outfilename a i (get_outfilename U q domain) in
               write_files a infilenames outfilename
             else
               stderr_write ("Failed to retrieve content from " ++ q ++ "." ++ nl)) ;;
            multiple_loop a base_dir (S i) rest
        end
      else multiple_loop a base_dir (S i) rest
  end.

(** [write_multiple_files(args, base_dir)] *)
Definition write_multiple_files (a : Args) (base_dir : string) : M bool :=
  multiple_loop a base_dir 0 (query a).

(** Lines 266-267. *)
Definition default_out (a : Args) : Args :=
  match out a with None => set_out a (Some []) | Some _ => a end.

(** Lines 269-275: detect whether to save to a single or multiple files. *)
Definition detect_mode (a : Args) : Args :=
  if negb (single a) && negb (multiple a) then
    if Nat.ltb 1 (length (query a)) || Nat.ltb 1 (length (out_list a))
    then set_multiple a true
    else set_single a true
  else a.

(** Lines 278-284: the loop that fills [args['files']] and [args['urls']]. *)
Fixpoint classify (qs files_ urls_ : list string) : list string * list string :=
  match qs with
  | [] => (files_, urls_)
  | arg :: rest =>
      if isfile U arg then classify rest (files_ ++ [arg]) urls_
      else classify rest files_ (urls_ ++ [strip "/" arg])
  end.

Definition split_query (a : Args) : Args :=
  let '(fs, us) := classify (query a) [] [] in
  set_urls (set_files a fs) us.

(** Lines 286-292: add URL extensions and schemes, update query and URLs. *)
Definition complete_urls (a : Args) : Args :=
  if nonempty (urls a) then
    let urls_with_exts := map (add_url_ext U) (urls a) in
    let a1 :=
      set_query a
        (map (fun x => if mem x (urls a) && negb (check_scheme U x)
                       then add_scheme U x else x)
             urls_with_exts) in
    set_urls a1 (filter (fun x => negb (mem x (files a1))) (query a1))
  else a.

(** Lines 294-297. *)
Definition drop_files_for_html (a : Args) : M Args :=
  if nonempty (files a) && html a then
    stderr_write ("Cannot convert local files to HTML." ++ nl) ;;
    ret (set_files a [])
  else ret a.

(** Lines 266-297: [args] as [scrape] has rewritten it when it dispatches,
    but for the files dropped in HTML mode. *)
Definition prepare (a : Args) : Args :=
  complete_urls (split_query (detect_mode (default_out a))).

(** Lines 299-302; the value is [None] when the function falls off its end. *)
Definition dispatch (a : Args) (base_dir : string) : M (option bool) :=
  if single a then
    b <- write_single_file a base_dir ;; ret (Some b)
  else if multiple a then
    b <- write_multiple_files a base_dir ;; ret (Some b)
  else ret None.

(** Lines 305-308: [try: os.chdir(base_dir)  except OSError: pass]. *)
Definition restore_dir (base_dir : string) : M unit :=
  try_except (chdir base_dir)
             (fun e => match e with OSError => ret tt | _ => raise e end).

(** Lines 303-311: the handler of [scrape]. *)
Definition recover {A} (a : Args) (base_dir : string) (e : exn) : M A :=
  (if html a then restore_dir base_dir else remove_part_files) ;;
  raise e.

(** [scrape(args)] *)
Definition scrape (a : Args) : M (option bool) :=
  base_dir <- getcwd ;;
  try_except
    (a' <- drop_files_for_html (prepare a) ;;
     dispatch a' base_dir)
    (recover a base_dir).

(** [scrape] with the writer it dispatches to made explicit. *)
Definition scrape_via (writer : Args -> string -> M bool) (a : Args)
  : M (option bool) :=
  base_dir <- getcwd ;;
  try_except
    (a' <- drop_files_for_html (prepare a) ;;
     b <- writer a' base_dir ;;
     ret (Some b))
    (recover a base_dir).

(** Either converter of [write_files], by format. *)
Definition write_to (fmt : Format) : Args -> list string -> string -> M unit :=
  match fmt with TextFile => write_to_text | PdfFile => write_to_pdf end.

(** The error, if any, the external writer of a format ends in when it is
    handed the inputs and the name the converter computes. *)
Definition writer_error (fmt : Format) (infilenames : list string)
           (outfilename : string) : option exn :=
  match fmt with
  | TextFile => text_writer U infilenames (text_outfilename outfilename)
  | PdfFile => pdf_writer U infilenames (pdf_outfilename outfilename)
  end.

End Orchestrator.

(** ** Concrete runs *)

Module Run.

(** Modelled from the spec: [utils.add_url_ext] is missing; section 4.1,
    a default extension is appended if the path has none. *)
Definition add_url_ext (x : string) : string :=
  if contains "." x then x else x ++ ".com".

(** Modelled from the spec: [utils.add_scheme] is missing; section 4.1,
    a default scheme is prepended. *)
Definition add_scheme (x : string) : string := "http://" ++ x.

(** Modelled from the spec: [utils.check_scheme] is missing; section 4.1,
    whether a scheme is present. *)
Definition check_scheme (x : string) : bool :=
  startswith x "http://" || startswith x "https://".

(** Modelled from the spec: [utils.get_domain] is missing; section 4.4,
    the domain a URL names, here the URL without its scheme. *)
Definition get_domain (url : string) : string :=
  if startswith url "http://" then substring 7 (String.length url - 7) url
  else if startswith url "https://" then substring 8 (String.length url - 8) url
  else url.

(** Modelled from the spec: [utils.get_outfilename] is missing; section 4.4,
    a name derived from the domain and path of the URL, here the domain. *)
Definition get_outfilename (url domain : string) : string := domain.

(** A run in which the paths in [local] are files on disk, the URLs in
    [reachable] can be fetched, every crawl writes [pages] pages and the
    writers end in [werr].  No run below lower-cases a name that is not
    ASCII; the field for the Unicode case mapping is the identity. *)
Definition collab (local reachable : list string) (pages : nat)
           (werr : option exn) : Collab :=
  mkCollab (fun p => mem p local) (fun _ => true)
           get_domain get_outfilename add_url_ext add_scheme check_scheme
           (fun q => if mem q reachable then Some "<html></html>" else None)
           (fun _ _ => (pages, None))
           (fun _ => inl ["text"])
           (fun _ _ => werr) (fun _ _ => werr)
           (fun s => s).

Definition cli (q : list string) (o : option (list string))
           (single_ multiple_ html_ pdf_ text_ : bool) : Args :=
  mkArgs q o single_ multiple_ html_ pdf_ text_ false false None false [] [].

Definition world0 : World := mkWorld "/work" [] [] [] [].

End Run.


(** ** The command line: [command_line_runner]

    [get_parser] builds an [argparse] parser; what [parse_args] returns is
    taken as given.  The keys of [args] that [scrape] never reads sit beside
    the ones it does. *)

Record CliArgs := mkCli {
  core : Args;
  version : bool;        (* args['version'] *)
  images : bool;         (* args['images'] *)
  no_images : bool       (* args['no_images'] *)
}.

Definition set_print (a : Args) (b : bool) : Args :=
  mkArgs (query a) (out a) (single a) (multiple a) (html a) (pdf a) (text a)
         b (quiet a) (crawl_rules a) (crawl_all a) (files a) (urls a).
Definition set_text (a : Args) (b : bool) : Args :=
  mkArgs (query a) (out a) (single a) (multiple a) (html a) (pdf a) b
         (print_ a) (quiet a) (crawl_rules a) (crawl_all a) (files a) (urls a).
Definition set_pdf (a : Args) (b : bool) : Args :=
  mkArgs (query a) (out a) (single a) (multiple a) (html a) b (text a)
         (print_ a) (quiet a) (crawl_rules a) (crawl_all a) (files a) (urls a).
Definition set_html (a : Args) (b : bool) : Args :=
  mkArgs (query a) (out a) (single a) (multiple a) b (pdf a) (text a)
         (print_ a) (quiet a) (crawl_rules a) (crawl_all a) (files a) (urls a).

(** What the terminal answers to one [input()]: a line, or an interrupt.
    A terminal that has nothing left answers with the end of input. *)
Inductive Answer :=
| Line (s : string)
| CtrlC.

(** [valid_types] (line 327) *)
Definition valid_types : list string := ["print"; "text"; "pdf"; "html"].

Definition first_prompt : string :=
  "Print or save output as (" ++ join ", " valid_types ++ "): ".

Definition again_prompt : string :=
  "Invalid entry. Choose from (" ++ join ", " valid_types ++ "): ".

Definition save_msg : string :=
  "Choosing to save images will greatly slow the crawling process." ++ nl ++
  "Save images anyways? (y/n): ".

(** [input(prompt)]: the prompt goes to standard output and one answer is
    taken from the terminal.  [None] stands for the [KeyboardInterrupt] or
    [EOFError] that both callers catch at once. *)
Definition input (prompt : string) (stdin : list Answer)
  : M (option (string * list Answer)) :=
  print prompt ;;
  ret (match stdin with
       | Line s :: rest => Some (s, rest)
       | _ => None
       end).

(** Lines 331-333: [while filetype not in valid_types: filetype = input(...).lower()] *)
Fixpoint while_invalid (filetype : string) (stdin : list Answer)
  : M (option (string * list Answer)) :=
  if mem filetype valid_types then ret (Some (filetype, stdin))
  else match stdin with
       | Line s :: rest => print again_prompt ;; while_invalid (lower s) rest
       | _ => print again_prompt ;; ret None
       end.

(** Lines 328-335: the file type asked for, or [None] when the user gave up. *)
Definition choose_filetype (stdin : list Answer)
  : M (option (string * list Answer)) :=
  r <- input first_prompt stdin ;;
  match r with
  | Some (s, rest) => while_invalid (lower s) rest
  | None => ret None
  end.

(** [args[filetype] = True] for a [filetype] of [valid_types] (line 336) *)
Definition set_filetype (a : Args) (filetype : string) : Args :=
  if String.eqb filetype "print" then set_print a true
  else if String.eqb filetype "text" then set_text a true
  else if String.eqb filetype "pdf" then set_pdf a true
  else if String.eqb filetype "html" then set_html a true
  else a.

Section Runner.

Variable U : Collab.
Variable version_string : string.         (* scrape.__version__ *)
Variable help_text : string.              (* what parser.print_help() prints *)
Variable disable_imgs : bool.             (* os.getenv('SCRAPE_DISABLE_IMGS') is set *)
Variable confirm_input : string -> bool.  (* utils.confirm_input *)

(** Lines 325-357 of [command_line_runner]: the arguments [scrape] is to be
    called with, or [None] where the function returns without calling it. *)
Definition resolve_filetype (c : CliArgs) (stdin : list Answer)
  : M (option (CliArgs * list Answer)) :=
  let a := core c in
  if negb (print_ a || text a || pdf a || html a) then
    r <- choose_filetype stdin ;;
    match r with
    | Some (filetype, rest) =>
        ret (Some (mkCli (set_filetype a filetype) (version c) (images c)
                         (no_images c), rest))
    | None => ret None
    end
  else ret (Some (c, stdin)).

Definition resolve_images (c : CliArgs) (stdin : list Answer)
  : M (option CliArgs) :=
  let c := if disable_imgs
           then mkCli (core c) (version c) (images c) true else c in
  let a := core c in
  if (pdf a || html a) && crawling a then
    if negb (images c) && negb (no_images c) then
      r <- input save_msg stdin ;;
      match r with
      | Some (s, _) =>
          if confirm_input s
          then ret (Some (mkCli a (version c) true false))
          else ret (Some (mkCli a (version c) false true))
      | None => ret None
      end
    else ret (Some c)
  else ret (Some c).

(** [command_line_runner()], on the parsed arguments and the terminal. *)
Definition command_line_runner (c : CliArgs) (stdin : list Answer) : M unit :=
  if version c then print version_string
  else if negb (nonempty (query (core c))) then print help_text
  else
    r <- resolve_filetype c stdin ;;
    match r with
    | None => ret tt
    | Some (c1, stdin1) =>
        r2 <- resolve_images c1 stdin1 ;;
        match r2 with
        | None => ret tt
        | Some c2 => scrape U (core c2) ;; ret tt
        end
    end.

End Runner.

(** ** Observations a computation leaves as they were *)

(** [m] ends, by a return or by an exception, in a world in which the
    observation [f] is what it was. *)
Definition preserves {A X} (f : World -> X) (m : M A) : Prop :=
  forall w, f (world_of (m w)) = f w.

(** ** Facts about the string primitives *)

Lemma endswith_refl (s : string) : endswith s s = true.
Proof. destruct s; cbn [endswith]; now rewrite String.eqb_refl. Qed.

Lemma endswith_app (p suf : string) : endswith (p ++ suf) suf = true.
Proof.
  induction p as [|c p IH]; cbn [endswith append].
  - apply endswith_refl.
  - rewrite IH. apply orb_true_r.
Qed.

Lemma endswith_iff (s suf : string) :
  endswith s suf = true <-> exists p : string, s = (p ++ suf)%string.
Proof.
  split.
  - induction s as [|c s IH]; cbn [endswith]; intro H.
    + rewrite orb_false_r in H. apply String.eqb_eq in H.
      now exists EmptyString.
    + apply orb_true_iff in H. destruct H as [H|H].
      * apply String.eqb_eq in H. now exists EmptyString.
      * destruct (IH H) as [p ->]. now exists (String c p).
  - intros [p ->]. apply endswith_app.
Qed.

Lemma prefix_empty (s : string) : String.prefix EmptyString s = true.
Proof. now destruct s. Qed.

Lemma split_without_sep (c : ascii) (s : string) :
  contains (String c EmptyString) s = false -> split c s = [s].
Proof.
  induction s as [|a s IH]; simpl; intro H; [reflexivity|].
  apply orb_false_iff in H. destruct H as [Hp Hc].
  destruct (ascii_dec c a) as [->|Hne].
  - now rewrite prefix_empty in Hp.
  - assert (Ascii.eqb a c = false) as ->
        by (apply Ascii.eqb_neq; congruence).
    now rewrite (IH Hc).
Qed.

Lemma strip_extension_without_dot (f : string) :
  contains "." f = false -> strip_extension f = EmptyString.
Proof.
  intro H. unfold strip_extension. now rewrite (split_without_sep _ _ H).
Qed.

(** ** The part-file store *)

Lemma count_in_set_count (d : string) (n : nat) (ps : list (string * nat)) :
  count_in d (set_count d n ps) = n.
Proof. unfold set_count. simpl. now rewrite String.eqb_refl. Qed.

Lemma remove_part_files_ok (w : World) :
  exists w', remove_part_files w = Ok tt w' /\
             num_part_files w' = 0 /\ cwd w' = cwd w /\
             stdout w' = stdout w /\ stderr w' = stderr w /\
             written w' = written w.
Proof.
  eexists. split; [reflexivity|].
  unfold num_part_files. simpl. rewrite String.eqb_refl. tauto.
Qed.

Lemma filter_other_dirs_twice (d : string) (ps : list (string * nat)) :
  filter (fun p => negb (String.eqb (fst p) d))
         (filter (fun p => negb (String.eqb (fst p) d)) ps)
  = filter (fun p => negb (String.eqb (fst p) d)) ps.
Proof.
  induction ps as [|[d' n] ps IH]; simpl; [reflexivity|].
  destruct (String.eqb d' d) eqn:E; simpl; [exact IH|].
  rewrite E. simpl. now rewrite IH.
Qed.

Lemma remove_part_files_idempotent (w : World) :
  (remove_part_files ;; remove_part_files) w = remove_part_files w.
Proof.
  unfold bind, remove_part_files, set_parts, set_count. simpl.
  rewrite String.eqb_refl. simpl.
  now rewrite filter_other_dirs_twice.
Qed.

(** ** The converters *)

(** C8: the name the text writer is handed ends with ['.txt'], being the
    given name when that already ends with ['.txt'] and the given name
    followed by ['.txt'] otherwise; the PDF writer is handed a name built
    the same way with ['.pdf'].  The outcome of either converter is that
    of its writer at this name. *)
Theorem writer_name_has_extension
        (U : Collab) (a : Args) (infilenames : list string)
        (outfilename : string) (w : World) :
  endswith (text_outfilename outfilename) ".txt" = true /\
  text_outfilename outfilename =
    (if endswith outfilename ".txt" then outfilename else (outfilename ++ ".txt")%string) /\
  write_to_text U a infilenames outfilename w =
    match text_writer U infilenames (text_outfilename outfilename) with
    | None => Ok tt (add_artifact
                       (TextFile, text_outfilename outfilename, infilenames) w)
    | Some e => cleanup_and_reraise a e w
    end /\
  endswith (pdf_outfilename outfilename) ".pdf" = true /\
  pdf_outfilename outfilename =
    (if endswith outfilename ".pdf" then outfilename else (outfilename ++ ".pdf")%string) /\
  write_to_pdf U a infilenames outfilename w =
    match pdf_writer U infilenames (pdf_outfilename outfilename) with
    | None => Ok tt (add_artifact
                       (PdfFile, pdf_outfilename outfilename, infilenames) w)
    | Some e => cleanup_and_reraise a e w
    end.
Proof.
  unfold text_outfilename, pdf_outfilename.
  repeat split.
  - destruct (endswith outfilename ".txt") eqn:E; simpl;
      [exact E | apply endswith_app].
  - now destruct (endswith outfilename ".txt").
  - unfold write_to_text, try_except, write_text_file, text_outfilename.
    now destruct (text_writer U infilenames _).
  - destruct (endswith outfilename ".pdf") eqn:E; simpl;
      [exact E | apply endswith_app].
  - now destruct (endswith outfilename ".pdf").
  - unfold write_to_pdf, try_except, write_pdf_file, pdf_outfilename.
    now destruct (pdf_writer U infilenames _).
Qed.

Lemma cleanup_and_reraise_eq (a : Args) (e : exn) (w : World) :
  cleanup_and_reraise a e w =
    Raise e (if nonempty (urls a) then world_of (remove_part_files w) else w).
Proof.
  unfold cleanup_and_reraise, bind. now destruct (nonempty (urls a)).
Qed.

(** C4: when the external writer of a text or PDF conversion raises, the
    converter raises the same exception; the world it raises in is the one
    in which the writer failed, with every part file of the working
    directory removed when the url set is non-empty and left as it was when
    the url set is empty. *)
Theorem writer_failure_cleans_then_reraises
        (U : Collab) (fmt : Format) (a : Args) (infilenames : list string)
        (outfilename : string) (w : World) (e : exn)
        (Hfail : writer_error U fmt infilenames outfilename = Some e) :
  exists w',
    write_to U fmt a infilenames outfilename w = Raise e w' /\
    w' = (if nonempty (urls a) then world_of (remove_part_files w) else w) /\
    num_part_files w' = (if nonempty (urls a) then 0 else num_part_files w) /\
    written w' = written w.
Proof.
  eexists. split; [|split; [reflexivity|]].
  - destruct fmt; simpl in *.
    + unfold write_to_text, try_except, write_text_file. rewrite Hfail.
      unfold raise. apply cleanup_and_reraise_eq.
    + unfold write_to_pdf, try_except, write_pdf_file. rewrite Hfail.
      unfold raise. apply cleanup_and_reraise_eq.
  - destruct (nonempty (urls a)); [|tauto].
    destruct (remove_part_files_ok w) as (w' & -> & H0 & _ & _ & _ & Hw).
    simpl. auto.
Qed.

Lemma writer_failure_cleans_then_reraises_witness :
  let U := Run.collab [] [] 0 (Some KeyboardInterrupt) in
  let a := mkArgs ["http://a.com"] (Some []) true false false false true
                  false false None false [] ["http://a.com"] in
  let w := mkWorld "/work" [("/work", 2)] [] [] [] in
  writer_error U TextFile ["PART1.html"; "PART2.html"] "a" = Some KeyboardInterrupt /\
  exists w',
    write_to U TextFile a ["PART1.html"; "PART2.html"] "a" w
      = Raise KeyboardInterrupt w' /\
    w' = world_of (remove_part_files w) /\
    num_part_files w' = 0 /\
    written w' = written w.
Proof.
  intros U a w. split; [reflexivity|].
  exact (writer_failure_cleans_then_reraises U TextFile a
           ["PART1.html"; "PART2.html"] "a" w KeyboardInterrupt eq_refl).
Defined.

(** ** The mode decision and the dispatch *)

Lemma out_list_default_out (a : Args) : out_list (default_out a) = out_list a.
Proof.
  unfold default_out, out_list.
  destruct (out a) eqn:E; simpl; now rewrite ?E.
Qed.

Lemma prepare_flags (U : Collab) (a : Args) :
  single (prepare U a) = single (detect_mode (default_out a)) /\
  multiple (prepare U a) = multiple (detect_mode (default_out a)) /\
  html (prepare U a) = html a.
Proof.
  unfold prepare, complete_urls, split_query.
  set (b := detect_mode (default_out a)).
  assert (Hh : html b = html a).
  { unfold b, detect_mode, default_out.
    destruct (out a); simpl;
      repeat match goal with |- context [if ?c then _ else _] => destruct c end;
      reflexivity. }
  destruct (classify U (query b) [] []) as [fs us].
  destruct (nonempty (urls (set_urls (set_files b fs) us))); simpl; auto.
Qed.

Lemma detect_mode_flags (a : Args) :
  let many := Nat.ltb 1 (length (query a)) || Nat.ltb 1 (length (out_list a)) in
  single (detect_mode a) = (single a || negb (multiple a) && negb many) /\
  multiple (detect_mode a) = (multiple a || negb (single a) && many).
Proof.
  unfold detect_mode.
  destruct (single a) eqn:S1, (multiple a) eqn:M1; simpl; auto.
  destruct (_ || _); simpl; rewrite ?S1, ?M1; auto.
Qed.

Lemma drop_files_for_html_flags (a : Args) (w : World) :
  exists a' w',
    drop_files_for_html a w = Ok a' w' /\
    single a' = single a /\ multiple a' = multiple a.
Proof.
  unfold drop_files_for_html.
  destruct (nonempty (files a) && html a); do 2 eexists; split;
    try reflexivity; simpl; auto.
Qed.

Lemma scrape_dispatch_single (U : Collab) (a : Args) (w : World) :
  single (prepare U a) = true ->
  scrape U a w = scrape_via U (write_single_file U) a w.
Proof.
  intro Hs. unfold scrape, scrape_via, bind, try_except, getcwd.
  destruct (drop_files_for_html_flags (prepare U a) w) as (a' & w' & -> & Hs' & _).
  unfold dispatch. now rewrite Hs', Hs.
Qed.

Lemma scrape_dispatch_multiple (U : Collab) (a : Args) (w : World) :
  single (prepare U a) = false -> multiple (prepare U a) = true ->
  scrape U a w = scrape_via U (write_multiple_files U) a w.
Proof.
  intros Hs Hm. unfold scrape, scrape_via, bind, try_except, getcwd.
  destruct (drop_files_for_html_flags (prepare U a) w) as (a' & w' & -> & Hs' & Hm').
  unfold dispatch. now rewrite Hs', Hs, Hm', Hm.
Qed.

Lemma ltb_or_iff (n m : nat) :
  Nat.ltb 1 n || Nat.ltb 1 m = true <-> 1 < n \/ 1 < m.
Proof. rewrite orb_true_iff, !Nat.ltb_lt. tauto. Qed.

(** C3: with neither mode flag set, the multiple flag is set if and only
    if the query list or the list of output names has more than one item,
    the single flag is set if and only if neither has, and the run goes to
    the writer of the mode so chosen; with the single flag set the run goes
    to the single-file writer, and with the multiple flag alone set it goes
    to the multiple-file writer. *)
Theorem mode_decision (U : Collab) (a : Args) (w : World) :
  (single a = false -> multiple a = false ->
   (multiple (prepare U a) = true <->
      1 < length (query a) \/ 1 < length (out_list a)) /\
   (single (prepare U a) = true <->
      ~ (1 < length (query a) \/ 1 < length (out_list a))) /\
   scrape U a w =
     scrape_via U (if Nat.ltb 1 (length (query a)) || Nat.ltb 1 (length (out_list a))
                   then write_multiple_files U else write_single_file U) a w) /\
  (single a = true -> multiple a = false ->
   scrape U a w = scrape_via U (write_single_file U) a w) /\
  (single a = false -> multiple a = true ->
   scrape U a w = scrape_via U (write_multiple_files U) a w).
Proof.
  destruct (prepare_flags U a) as (Hs & Hm & _).
  destruct (detect_mode_flags (default_out a)) as (Ds & Dm).
  rewrite out_list_default_out in Ds, Dm.
  assert (Es : single (default_out a) = single a)
    by (unfold default_out; now destruct (out a)).
  assert (Em : multiple (default_out a) = multiple a)
    by (unfold default_out; now destruct (out a)).
  assert (Eq : query (default_out a) = query a)
    by (unfold default_out; now destruct (out a)).
  rewrite Es, Em, Eq in Ds, Dm. rewrite Ds in Hs. rewrite Dm in Hm.
  clear Ds Dm Es Em Eq.
  split; [intros S1 M1 | split; intros S1 M1];
    rewrite S1, M1 in Hs, Hm; simpl in Hs, Hm.
  - destruct (Nat.ltb 1 (length (query a)) || Nat.ltb 1 (length (out_list a)))
      eqn:E; simpl in Hs, Hm.
    + pose proof (proj1 (ltb_or_iff _ _) E) as C.
      split; [|split].
      * rewrite Hm. tauto.
      * rewrite Hs. split; [discriminate | tauto].
      * now apply scrape_dispatch_multiple.
    + assert (C : ~ (1 < length (query a) \/ 1 < length (out_list a))).
      { intro C. apply ltb_or_iff in C. congruence. }
      split; [|split].
      * rewrite Hm. split; [discriminate | tauto].
      * rewrite Hs. tauto.
      * now apply scrape_dispatch_single.
  - now apply scrape_dispatch_single.
  - now apply scrape_dispatch_multiple.
Qed.

Lemma mode_decision_witness :
  let U := Run.collab [] ["http://a.com"; "http://b.com"] 0 None in
  (let a := Run.cli ["a.com"; "b.com"] None false false false false true in
   single a = false /\ multiple a = false /\
   multiple (prepare U a) = true /\
   scrape U a Run.world0 = scrape_via U (write_multiple_files U) a Run.world0) /\
  (let a := Run.cli ["a.com"; "b.com"] None true false false false true in
   single a = true /\ multiple a = false /\
   scrape U a Run.world0 = scrape_via U (write_single_file U) a Run.world0) /\
  (let a := Run.cli ["a.com"] None false true false false true in
   single a = false /\ multiple a = true /\
   scrape U a Run.world0 = scrape_via U (write_multiple_files U) a Run.world0).
Proof.
  intro U.
  pose proof (mode_decision U
    (Run.cli ["a.com"; "b.com"] None false false false false true)
    Run.world0) as H1.
  pose proof (mode_decision U
    (Run.cli ["a.com"; "b.com"] None true false false false true)
    Run.world0) as H2.
  pose proof (mode_decision U
    (Run.cli ["a.com"] None false true false false true)
    Run.world0) as H3.
  split; [|split].
  - destruct (proj1 H1 eq_refl eq_refl) as (Hm & _ & Hrun).
    split; [reflexivity|]. split; [reflexivity|]. split.
    + apply Hm. left. simpl. lia.
    + exact Hrun.
  - split; [reflexivity|]. split; [reflexivity|].
    exact (proj1 (proj2 H2) eq_refl eq_refl).
  - split; [reflexivity|]. split; [reflexivity|].
    exact (proj2 (proj2 H3) eq_refl eq_refl).
Defined.

(** C9: with both mode flags set the run goes to the single-file writer:
    both flags reach the dispatch as they were given, and [scrape] is
    [scrape] by way of [write_single_file]. *)
Theorem both_flags_single_wins (U : Collab) (a : Args) (w : World)
        (Hs : single a = true) (Hm : multiple a = true) :
  single (prepare U a) = true /\
  multiple (prepare U a) = true /\
  (forall base_dir,
      dispatch U (prepare U a) base_dir =
        (b <- write_single_file U (prepare U a) base_dir ;; ret (Some b))) /\
  scrape U a w = scrape_via U (write_single_file U) a w.
Proof.
  destruct (prepare_flags U a) as (Ps & Pm & _).
  destruct (detect_mode_flags (default_out a)) as (Ds & Dm).
  assert (Es : single (default_out a) = true)
    by (unfold default_out; now destruct (out a)).
  assert (Em : multiple (default_out a) = true)
    by (unfold default_out; now destruct (out a)).
  rewrite Es, Em in Ds, Dm. simpl in Ds, Dm.
  rewrite Ds in Ps. rewrite Dm in Pm.
  repeat split; auto.
  - intro base_dir. unfold dispatch. now rewrite Ps.
  - now apply scrape_dispatch_single.
Qed.

Lemma both_flags_single_wins_witness :
  let U := Run.collab [] ["http://a.com"; "http://b.com"] 0 None in
  let a := Run.cli ["a.com"; "b.com"] None true true false false true in
  single a = true /\ multiple a = true /\
  scrape U a Run.world0 = scrape_via U (write_single_file U) a Run.world0 /\
  scrape U a Run.world0 =
    Ok (Some true)
       (mkWorld "/work" [("/work", 0)] [] []
                [(TextFile, "a.com.txt", ["PART1.html"; "PART2.html"])]) /\
  scrape_via U (write_multiple_files U) a Run.world0 =
    Ok (Some true)
       (mkWorld "/work" [("/work", 0)] [] []
                [(TextFile, "a.com.txt", ["PART1.html"]);
                 (TextFile, "b.com.txt", ["PART1.html"])]).
Proof.
  intros U a. split; [reflexivity|]. split; [reflexivity|]. split.
  - exact (proj2 (proj2 (proj2
             (both_flags_single_wins U a Run.world0 eq_refl eq_refl)))).
  - split; vm_compute; reflexivity.
Defined.

(** ** What the fetch loops leave untouched *)

Lemma fetch_page_eq (U : Collab) (a : Args) (q : string) (w : World) :
  fetch_page U a q w =
    match fetch U q with
    | Some _ =>
        Ok (Some (get_part_filenames (num_part_files w + 1) (num_part_files w)))
           (set_parts (set_count (cwd w) (S (num_part_files w)) (parts w)) w)
    | None => Ok None w
    end.
Proof.
  unfold fetch_page, get_raw_resp, bind, ret.
  now destruct (fetch U q).
Qed.

Lemma crawl_quiet (U : Collab) (a : Args) (q d : string) (w : World) :
  stderr (world_of (crawl U a q d w)) = stderr w /\
  written (world_of (crawl U a q d w)) = written w /\
  cwd (world_of (crawl U a q d w)) = cwd w.
Proof.
  unfold crawl. destruct (crawl_run U q d) as [n [e|]]; simpl; auto.
Qed.

Lemma gather_quiet (U : Collab) (a : Args) (d : string) (qs : list string) :
  forall infs w,
    stderr (world_of (gather U a d qs infs w)) = stderr w /\
    written (world_of (gather U a d qs infs w)) = written w /\
    cwd (world_of (gather U a d qs infs w)) = cwd w.
Proof.
  induction qs as [|q rest IH]; intros infs w; cbn [gather].
  - simpl. auto.
  - destruct (mem (strip "/" q) (urls a)).
    + destruct (crawling a).
      * unfold bind. destruct (crawl_quiet U a q d w) as (He & Hw & Hc).
        destruct (crawl U a q d w) as [new w1|e w1]; simpl in *.
        -- destruct (IH (infs ++ new) w1) as (He' & Hw' & Hc').
           rewrite He', Hw', Hc'. auto.
        -- auto.
      * unfold bind. rewrite fetch_page_eq.
        destruct (fetch U q); simpl; auto.
        match goal with |- context [gather U a d rest ?i ?w1] =>
          destruct (IH i w1) as (He' & Hw' & Hc') end.
        rewrite He', Hw', Hc'. auto.
    + destruct (mem q (files a)); apply IH.
Qed.


Lemma enter_domain_dir_quiet (a : Args) (d : string) (w : World) :
  exists w', enter_domain_dir a d w = Ok tt w' /\
             stderr w' = stderr w /\ written w' = written w /\
             parts w' = parts w /\
             cwd w' = (cwd w ++ "/" ++ d)%string.
Proof.
  unfold enter_domain_dir, bind, mkdir_and_cd.
  destruct (negb (quiet a)); simpl; eexists; split; try reflexivity; simpl; auto.
Qed.

Lemma single_inputs_quiet (U : Collab) (a : Args) (w : World) :
  stderr (world_of (single_inputs U a w)) = stderr w /\
  written (world_of (single_inputs U a w)) = written w.
Proof.
  unfold single_inputs, bind.
  destruct (nonempty (urls a)).
  - destruct (html a).
    + destruct (enter_domain_dir_quiet a (get_domain U (index (urls a) 0)) w)
        as (w1 & -> & He & Hw & _).
      unfold ret.
      match goal with |- context [gather U a ?d ?qs ?i ?w0] =>
        destruct (gather_quiet U a d qs i w0) as (He' & Hw' & _) end.
      rewrite He', Hw'. auto.
    + unfold ret.
      match goal with |- context [gather U a ?d ?qs ?i ?w0] =>
        destruct (gather_quiet U a d qs i w0) as (He' & Hw' & _) end.
      auto.
  - unfold ret.
    match goal with |- context [gather U a ?d ?qs ?i ?w0] =>
      destruct (gather_quiet U a d qs i w0) as (He' & Hw' & _) end.
    auto.
Qed.


(** ** A fetch that returns no content *)




(** ** The loop of the multiple-file writer *)

Lemma and_then_bind {A} (m : M A) (f : A -> M bool) (k : M bool) (w : World) :
  and_then (bind m f w) k = bind m (fun x w' => and_then (f x w') k) w.
Proof. unfold bind. now destruct (m w). Qed.

Lemma bind_ext {A B} (m : M A) (f g : A -> M B) (w : World) :
  (forall x w', f x w' = g x w') -> bind m f w = bind m g w.
Proof. intro H. unfold bind. destruct (m w); [apply H | reflexivity]. Qed.

Lemma multiple_loop_app (U : Collab) (a : Args) (base_dir : string)
      (pre qs : list string) :
  forall i w,
    multiple_loop U a base_dir i (pre ++ qs) w =
      and_then (multiple_loop U a base_dir i pre w)
               (multiple_loop U a base_dir (i + length pre) qs).
Proof.
  induction pre as [|q pre IH]; intros i w.
  - simpl. now rewrite Nat.add_0_r.
  - assert (Hi : i + length (q :: pre) = S i + length pre) by (simpl; lia).
    rewrite Hi. cbn [app multiple_loop].
    destruct (mem q (files a)).
    { rewrite and_then_bind. apply bind_ext. intros _ w'. apply IH. }
    destruct (mem q (urls a)); [|apply IH].
    rewrite and_then_bind. apply bind_ext. intros _ w1.
    rewrite and_then_bind. apply bind_ext. intros [infs|] w2; [|reflexivity].
    rewrite and_then_bind. apply bind_ext. intros _ w3. apply IH.
Qed.

(** How far the early [return False] of line 242 reaches: once the targets
    before a URL whose single-page fetch returns no content have been
    processed, [write_multiple_files] returns [False] at once, whatever
    targets follow; nothing is written to standard error for the failure,
    no artifact is written and no part file is touched.  The branch of
    lines 255-257, in the same loop, reports and goes on instead. *)
Theorem multiple_fetch_failure_aborts
        (U : Collab) (a : Args) (base_dir : string) (w w1 : World)
        (pre : list string) (q : string) (rest : list string)
        (Hnocrawl : crawling a = false)
        (Hquery : query a = pre ++ q :: rest)
        (Hpre : multiple_loop U a base_dir 0 pre w = Ok true w1)
        (Hnofile : mem q (files a) = false)
        (Hurl : mem q (urls a) = true)
        (Hnone : fetch U q = None) :
  exists w',
    write_multiple_files U a base_dir w = Ok false w' /\
    stderr w' = stderr w1 /\
    written w' = written w1 /\
    parts w' = parts w1.
Proof.
  unfold write_multiple_files. rewrite Hquery, multiple_loop_app, Hpre.
  cbn [and_then multiple_loop]. rewrite Hnofile, Hurl, Hnocrawl.
  unfold bind. destruct (html a).
  - destruct (enter_domain_dir_quiet a (get_domain U q) w1)
      as (w2 & -> & He & Hw & Hp & _).
    rewrite fetch_page_eq, Hnone. exists w2. auto.
  - unfold ret. rewrite fetch_page_eq, Hnone. exists w1. auto.
Qed.

Lemma multiple_fetch_failure_aborts_witness :
  let U := Run.collab [] ["http://a.com"; "http://c.com"] 0 None in
  let a := prepare U (Run.cli ["a.com"; "b.com"; "c.com"] None
                              false false false false true) in
  let w1 := mkWorld "/work" [("/work", 0)] [] []
                    [(TextFile, "a.com.txt", ["PART1.html"])] in
  crawling a = false /\
  query a = ["http://a.com"] ++ "http://b.com" :: ["http://c.com"] /\
  multiple_loop U a "/work" 0 ["http://a.com"] Run.world0 = Ok true w1 /\
  fetch U "http://b.com" = None /\
  exists w',
    write_multiple_files U a "/work" Run.world0 = Ok false w' /\
    stderr w' = stderr w1 /\
    written w' = written w1 /\
    parts w' = parts w1.
Proof.
  intros U a w1.
  do 4 (split; [reflexivity|]).
  exact (multiple_fetch_failure_aborts U a "/work" Run.world0 w1
           ["http://a.com"] "http://b.com" ["http://c.com"]
           eq_refl eq_refl eq_refl eq_refl eq_refl eq_refl).
Defined.

(** C2: of two targets in multiple-file mode the first cannot be fetched
    and the second can.  The run ends with [False], standard error stays
    empty, and the second target, which alone yields its text file, is
    never processed. *)
Lemma multiple_fetch_failure_stops_the_run :
  let U := Run.collab [] ["http://b.com"] 0 None in
  let a := Run.cli ["a.com"; "b.com"] None false false false false true in
  multiple (prepare U a) = true /\ single (prepare U a) = false /\
  fetch U "http://a.com" = None /\
  scrape U a Run.world0 = Ok (Some false) Run.world0 /\
  stderr Run.world0 = [] /\ written Run.world0 = [] /\
  scrape U (Run.cli ["b.com"] None false true false false true) Run.world0 =
    Ok (Some true)
       (mkWorld "/work" [("/work", 0)] [] []
                [(TextFile, "b.com.txt", ["PART1.html"])]).
Proof.
  intros U a. do 6 (split; [vm_compute; reflexivity|]).
  vm_compute. reflexivity.
Qed.

(** ** The single output name *)

Lemma find_none_of_existsb {A} (p : A -> bool) (l : list A) :
  existsb p l = false -> find p l = None.
Proof.
  induction l as [|x l IH]; simpl; [reflexivity|].
  destruct (p x); simpl; [discriminate | exact IH].
Qed.

Lemma first_outfilename_extensionless
      (U : Collab) (a : Args) (pre : list string) (f : string)
      (post : list string) :
  forallb (fun arg => negb (mem arg (files a)) &&
                      negb (existsb (fun url => contains (strip "/" arg) url) (urls a))) pre = true ->
  mem f (files a) = true ->
  contains "." f = false ->
  first_outfilename U a (pre ++ f :: post) = Some EmptyString.
Proof.
  intros Hpre Hf Hdot. induction pre as [|arg pre IH]; cbn [app first_outfilename].
  - rewrite Hf, (strip_extension_without_dot f Hdot). reflexivity.
  - simpl in Hpre. apply andb_true_iff in Hpre. destruct Hpre as [Harg Hpre].
    apply andb_true_iff in Harg. destruct Harg as [Hnf Hnu].
    apply negb_true_iff in Hnf, Hnu.
    rewrite Hnf, (find_none_of_existsb _ _ Hnu). now apply IH.
Qed.

(** C10, as amended: in single-file mode without an explicit output name,
    when the first query item that is a known file or matches a known URL
    is a local file whose name has no ['.'], the derived output name is the
    empty string and nothing is written to standard error for it; once the
    input files are gathered the run writes no output file and returns
    [True]. *)
Theorem extensionless_file_yields_no_output
        (U : Collab) (a : Args) (base_dir : string) (w w1 : World)
        (pre : list string) (f : string) (post infilenames : list string)
        (Hnohtml : html a = false)
        (Hnoout : out_list a = [])
        (Hquery : query a = pre ++ f :: post)
        (Hpre : forallb (fun arg =>
                   negb (mem arg (files a)) &&
                   negb (existsb (fun url => contains (strip "/" arg) url) (urls a))) pre = true)
        (Hfile : mem f (files a) = true)
        (Hnodot : contains "." f = false)
        (Hinputs : single_inputs U a w = Ok (Some infilenames) w1) :
  get_single_outfilename U a w1 = Ok EmptyString w1 /\
  exists w',
    write_single_file U a base_dir w = Ok true w' /\
    stderr w' = stderr w /\
    written w' = written w.
Proof.
  assert (Hname : get_single_outfilename U a w1 = Ok EmptyString w1).
  { unfold get_single_outfilename.
    rewrite Hquery, (first_outfilename_extensionless U a pre f post Hpre Hfile Hnodot).
    reflexivity. }
  split; [exact Hname|].
  destruct (single_inputs_quiet U a w) as (He & Hw).
  rewrite Hinputs in He, Hw. simpl in He, Hw.
  unfold write_single_file, bind. rewrite Hinputs, Hnohtml, Hnoout.
  destruct infilenames as [|x xs]; simpl.
  - eexists. split; [reflexivity|]. simpl. auto.
  - rewrite Hname. simpl. eexists. split; [reflexivity|]. auto.
Qed.

Lemma extensionless_file_yields_no_output_witness :
  let U := Run.collab ["README"] [] 0 None in
  let a := prepare U (Run.cli ["README"] None false false false false true) in
  (html a = false /\ out_list a = [] /\ query a = [] ++ "README" :: [] /\
   mem "README" (files a) = true /\ contains "." "README" = false /\
   single_inputs U a Run.world0 = Ok (Some ["README"]) Run.world0) /\
  get_single_outfilename U a Run.world0 = Ok EmptyString Run.world0 /\
  exists w',
    write_single_file U a "/work" Run.world0 = Ok true w' /\
    stderr w' = stderr Run.world0 /\
    written w' = written Run.world0.
Proof.
  intros U a. split.
  - do 5 (split; [reflexivity|]). reflexivity.
  - exact (extensionless_file_yields_no_output U a "/work" Run.world0 Run.world0
             [] "README" [] ["README"]
             eq_refl eq_refl eq_refl eq_refl eq_refl eq_refl eq_refl).
Defined.

(** C10, as the claim has it, fails: the run over the one local file
    [README] returns [True] and writes no output file, and standard error
    is as empty as it was. *)
Lemma extensionless_file_writes_no_diagnostic :
  let U := Run.collab ["README"] [] 0 None in
  let a := Run.cli ["README"] None false false false false true in
  single (prepare U a) = true /\
  files (prepare U a) = ["README"] /\
  first_outfilename U (prepare U a) (query (prepare U a)) = Some EmptyString /\
  scrape U a Run.world0 = Ok (Some true) Run.world0 /\
  stderr Run.world0 = [] /\
  ~ (exists w' line,
        scrape U a Run.world0 = Ok (Some true) w' /\ In line (stderr w')).
Proof.
  intros U a.
  assert (E : scrape U a Run.world0 = Ok (Some true) Run.world0)
    by (vm_compute; reflexivity).
  do 3 (split; [reflexivity|]).
  split; [exact E|]. split; [reflexivity|].
  intros (w' & line & E' & Hin). rewrite E in E'.
  injection E' as <-. exact Hin.
Qed.

(** ** Cleaning up and going back *)

Lemma write_files_removes_parts
      (U : Collab) (a : Args) (infilenames : list string) (outfilename : string)
      (w w' : World) :
  nonempty (urls a) = true -> html a = false ->
  write_files U a infilenames outfilename w = Ok tt w' ->
  num_part_files w' = 0.
Proof.
  intros Hu Hh. unfold write_files, bind. rewrite Hu, Hh. simpl.
  match goal with |- context [match ?m w with _ => _ end] => destruct (m w) end;
    [|discriminate].
  destruct (remove_part_files_ok w0) as (w2 & -> & H0 & _).
  intro E. injection E as <-. exact H0.
Qed.

Lemma scrape_eq (U : Collab) (a : Args) (w : World) :
  scrape U a w =
    match (a' <- drop_files_for_html (prepare U a) ;; dispatch U a' (cwd w)) w with
    | Ok r w' => Ok r w'
    | Raise e w' => recover U a (cwd w) e w'
    end.
Proof. reflexivity. Qed.

Lemma scrape_failure_removes_parts
      (U : Collab) (a : Args) (w w' : World) (e : exn) :
  html a = false ->
  scrape U a w = Raise e w' ->
  num_part_files w' = 0.
Proof.
  intros Hh. rewrite scrape_eq.
  destruct ((a' <- drop_files_for_html (prepare U a) ;; dispatch U a' (cwd w)) w)
    as [r w0|e0 w0]; [discriminate|].
  unfold recover, bind. rewrite Hh.
  destruct (remove_part_files_ok w0) as (w2 & -> & H0 & _).
  unfold raise. intro E. injection E as _ <-. exact H0.
Qed.

Lemma scrape_failure_restores_dir
      (U : Collab) (a : Args) (w w' : World) (e : exn) :
  html a = true -> chdir_ok U (cwd w) = true ->
  scrape U a w = Raise e w' ->
  cwd w' = cwd w.
Proof.
  intros Hh Hok. rewrite scrape_eq.
  destruct ((a' <- drop_files_for_html (prepare U a) ;; dispatch U a' (cwd w)) w)
    as [r w0|e0 w0]; [discriminate|].
  unfold recover, bind, restore_dir, try_except, chdir. rewrite Hh, Hok.
  unfold raise. intro E. injection E as _ <-. reflexivity.
Qed.

(** Whatever [scrape] raises is what its body raised: the handler re-raises
    the exception it caught. *)
Lemma scrape_reraises (U : Collab) (a : Args) (w w' : World) (e : exn) :
  scrape U a w = Raise e w' ->
  exists w0,
    (a' <- drop_files_for_html (prepare U a) ;; dispatch U a' (cwd w)) w
      = Raise e w0.
Proof.
  rewrite scrape_eq.
  destruct ((a' <- drop_files_for_html (prepare U a) ;; dispatch U a' (cwd w)) w)
    as [r w0|e0 w0]; [discriminate|].
  unfold recover, bind, restore_dir, try_except, chdir.
  destruct (html a).
  - destruct (chdir_ok U (cwd w)); unfold raise, ret;
      intro E; injection E as <- _; eauto.
  - unfold remove_part_files, raise. intro E. injection E as <- _. eauto.
Qed.

Lemma restore_dir_never_raises (U : Collab) (base_dir : string) (w : World) :
  restore_dir U base_dir w =
    Ok tt (if chdir_ok U base_dir then set_cwd base_dir w else w).
Proof.
  unfold restore_dir, try_except, chdir. now destruct (chdir_ok U base_dir).
Qed.

(** C1: two URLs in single-file text mode, the first fetched and written
    as a part file, the second returning no content.  The run ends with
    [False] and the part file of the first is still in the working
    directory. *)
Theorem single_fetch_failure_leaves_part_file :
  let U := Run.collab [] ["http://a.com"] 0 None in
  let a := Run.cli ["a.com"; "b.com"] None true false false false true in
  urls (prepare U a) = ["http://a.com"; "http://b.com"] /\
  html (prepare U a) = false /\
  num_part_files Run.world0 = 0 /\
  scrape U a Run.world0 =
    Ok (Some false) (mkWorld "/work" [("/work", 1)] [] [] []) /\
  num_part_files (world_of (scrape U a Run.world0)) = 1.
Proof.
  intros U a. do 4 (split; [vm_compute; reflexivity|]).
  vm_compute. reflexivity.
Qed.

(** C5: one URL in HTML mode whose fetch returns no content.  The run
    ends with [False] in the domain directory it had entered, not in the
    directory it started from. *)
Theorem html_fetch_failure_stays_in_domain_dir :
  let U := Run.collab [] [] 0 None in
  let a := Run.cli ["a.com"] None false false true false false in
  cwd Run.world0 = "/work" /\
  scrape U a Run.world0 =
    Ok (Some false)
       (mkWorld "/work/a.com" [] ["Storing html files in a.com/"] [] []) /\
  cwd (world_of (scrape U a Run.world0)) <> cwd Run.world0 /\
  scrape U (Run.cli ["a.com"; "b.com"] None false false true false false)
         Run.world0 =
    Ok (Some false)
       (mkWorld "/work/a.com" [] ["Storing html files in a.com/"] [] []).
Proof.
  intros U a. split; [reflexivity|].
  split; [vm_compute; reflexivity|].
  split; [vm_compute; discriminate|].
  vm_compute. reflexivity.
Qed.

(** ** The rewritten query *)

Lemma classify_spec (U : Collab) (qs : list string) :
  forall fs us,
    classify U qs fs us =
      (fs ++ filter (isfile U) qs,
       us ++ map (strip "/") (filter (fun q => negb (isfile U q)) qs)).
Proof.
  induction qs as [|q qs IH]; intros fs us; simpl.
  - now rewrite !app_nil_r.
  - destruct (isfile U q); simpl; rewrite IH, <- app_assoc; reflexivity.
Qed.

Lemma prepare_query_length (U : Collab) (a : Args) :
  existsb (fun q => negb (isfile U q)) (query a) = true ->
  length (query (prepare U a)) =
    length (filter (fun q => negb (isfile U q)) (query a)).
Proof.
  intro Hex. unfold prepare, complete_urls, split_query.
  assert (Hq : query (detect_mode (default_out a)) = query a).
  { unfold detect_mode, default_out.
    destruct (out a); simpl;
      repeat match goal with |- context [if ?c then _ else _] => destruct c end;
      reflexivity. }
  rewrite Hq, classify_spec. simpl.
  destruct (filter (fun q => negb (isfile U q)) (query a)) as [|u us] eqn:E.
  - exfalso. apply existsb_exists in Hex. destruct Hex as (q & Hin & Hq').
    assert (In q (filter (fun q => negb (isfile U q)) (query a)))
      by (apply filter_In; auto).
    rewrite E in H. exact H.
  - simpl. now rewrite !length_map.
Qed.

(** A URL that [add_url_ext] changes into a string that is none of the
    classified URLs reaches the rewritten query without a scheme: the test
    [x in args['urls']] of line 289 is made on the completed URL. *)
Lemma completed_url_gets_no_scheme (U : Collab) (a : Args) (u : string) :
  In u (urls a) ->
  mem (add_url_ext U u) (urls a) = false ->
  In (add_url_ext U u) (query (complete_urls U a)).
Proof.
  intros Hin Hnew. unfold complete_urls.
  destruct (urls a) as [|u0 us] eqn:E; [destruct Hin|].
  cbn [nonempty set_urls set_query query].
  rewrite map_map. apply in_map_iff. exists u. split; [|exact Hin].
  now rewrite Hnew.
Qed.

(** C7: a query of the local file [notes.html] and the URL [example.com].
    After classification the file is in the file set, and the rewritten
    query holds the completed URL alone: the local file is gone from it and
    the run converts the URL only.  With the URL [example] in place of
    [example.com] the rewritten query holds [example.com], with the
    extension and without a scheme. *)
Theorem mixed_query_loses_local_file :
  let U := Run.collab ["notes.html"] ["http://example.com"] 0 None in
  let a := Run.cli ["notes.html"; "example.com"] None false false false false true in
  let b := Run.cli ["notes.html"; "example"] None false false false false true in
  files (prepare U a) = ["notes.html"] /\
  urls (prepare U a) = ["http://example.com"] /\
  query (prepare U a) = ["http://example.com"] /\
  mem "notes.html" (query (prepare U a)) = false /\
  scrape U a Run.world0 =
    Ok (Some true)
       (mkWorld "/work" [("/work", 0)] [] []
                [(TextFile, "example.com.txt", ["PART1.html"])]) /\
  query (prepare U b) = ["example.com"] /\
  check_scheme U "example.com" = false.
Proof.
  intros U a b. do 6 (split; [vm_compute; reflexivity|]).
  vm_compute. reflexivity.
Qed.

(** ** What the converters touch *)

Lemma world_eta (w : World) :
  mkWorld (cwd w) (parts w) (stdout w) (stderr w) (written w) = w.
Proof. now destruct w. Qed.

Lemma print_lines_eq (ls : list string) :
  forall w,
    print_lines ls w =
      Ok tt (mkWorld (cwd w) (parts w) (stdout w ++ ls) (stderr w) (written w)).
Proof.
  induction ls as [|l ls IH]; intro w; cbn [print_lines].
  - unfold ret. now rewrite app_nil_r, world_eta.
  - unfold bind, print. rewrite IH. simpl. now rewrite <- app_assoc.
Qed.

Lemma print_text_only_prints (U : Collab) (a : Args) (infs : list string) :
  forall w, exists so,
    world_of (print_text U a infs w) =
      mkWorld (cwd w) (parts w) so (stderr w) (written w).
Proof.
  induction infs as [|f infs IH]; intro w; cbn [print_text].
  - exists (stdout w). simpl. now rewrite world_eta.
  - unfold bind, get_parsed_text.
    destruct (parsed_text U f) as [ls|e].
    + unfold ret at 1. destruct (nonempty ls).
      * rewrite print_lines_eq. unfold print.
        match goal with |- context [print_text U a infs ?w1] =>
          destruct (IH w1) as (so & ->) end.
        simpl. eauto.
      * unfold ret. apply IH.
    + exists (stdout w). simpl. now rewrite world_eta.
Qed.

Lemma print_text_frame (U : Collab) (a : Args) (infs : list string) (w : World) :
  cwd (world_of (print_text U a infs w)) = cwd w /\
  parts (world_of (print_text U a infs w)) = parts w /\
  stderr (world_of (print_text U a infs w)) = stderr w /\
  written (world_of (print_text U a infs w)) = written w.
Proof.
  destruct (print_text_only_prints U a infs w) as (so & ->). simpl. auto.
Qed.

Lemma write_to_eq (U : Collab) (fmt : Format) (a : Args)
      (infs : list string) (o : string) (w : World) :
  write_to U fmt a infs o w =
    match writer_error U fmt infs o with
    | None =>
        Ok tt (add_artifact
                 (fmt,
                  match fmt with
                  | TextFile => text_outfilename o
                  | PdfFile => pdf_outfilename o
                  end, infs) w)
    | Some e =>
        Raise e (if nonempty (urls a) then world_of (remove_part_files w) else w)
    end.
Proof.
  destruct fmt; simpl.
  - unfold write_to_text, try_except, write_text_file.
    destruct (text_writer U infs (text_outfilename o)); [|reflexivity].
    unfold raise. apply cleanup_and_reraise_eq.
  - unfold write_to_pdf, try_except, write_pdf_file.
    destruct (pdf_writer U infs (pdf_outfilename o)); [|reflexivity].
    unfold raise. apply cleanup_and_reraise_eq.
Qed.

Lemma write_to_frame (U : Collab) (fmt : Format) (a : Args)
      (infs : list string) (o : string) (w : World) :
  cwd (world_of (write_to U fmt a infs o w)) = cwd w /\
  stdout (world_of (write_to U fmt a infs o w)) = stdout w /\
  stderr (world_of (write_to U fmt a infs o w)) = stderr w.
Proof.
  rewrite write_to_eq.
  destruct (writer_error U fmt infs o); simpl; auto.
  destruct (nonempty (urls a)); simpl; auto.
Qed.

(** The format branch of [write_files] (lines 140-145). *)
Lemma convert_frame (U : Collab) (a : Args) (infs : list string) (o : string)
      (w : World) :
  let conv := if print_ a then print_text U a infs
              else if pdf a then write_to_pdf U a infs o
              else if text a then write_to_text U a infs o
              else ret tt in
  cwd (world_of (conv w)) = cwd w /\ stderr (world_of (conv w)) = stderr w.
Proof.
  simpl. destruct (print_ a).
  - destruct (print_text_frame U a infs w) as (H1 & _ & H3 & _). auto.
  - destruct (pdf a).
    + destruct (write_to_frame U PdfFile a infs o w) as (H1 & _ & H3). auto.
    + destruct (text a).
      * destruct (write_to_frame U TextFile a infs o w) as (H1 & _ & H3). auto.
      * simpl. auto.
Qed.

Lemma write_files_frame (U : Collab) (a : Args) (infs : list string) (o : string)
      (w : World) :
  cwd (world_of (write_files U a infs o w)) = cwd w /\
  stderr (world_of (write_files U a infs o w)) = stderr w.
Proof.
  unfold write_files, bind.
  pose proof (convert_frame U a infs o w) as H. simpl in H.
  destruct ((if print_ a then print_text U a infs
             else if pdf a then write_to_pdf U a infs o
             else if text a then write_to_text U a infs o
             else ret tt) w) as [[] w1|e w1]; simpl in H; [|exact H].
  destruct (nonempty (urls a) && negb (html a)); simpl; exact H.
Qed.

(** X1: [write_files] in print mode writes no output file, whatever the
    pdf and text flags say and whether or not the text extraction raises:
    printing comes first in the dispatch. *)
Theorem write_files_print_wins
        (U : Collab) (a : Args) (infilenames : list string)
        (outfilename : string) (w : World)
        (Hprint : print_ a = true) :
  written (world_of (write_files U a infilenames outfilename w)) = written w /\
  stderr (world_of (write_files U a infilenames outfilename w)) = stderr w /\
  write_files U a infilenames outfilename w =
    write_files U (set_text (set_pdf a false) false) infilenames outfilename w.
Proof.
  split; [|split].
  - unfold write_files, bind. rewrite Hprint.
    destruct (print_text_frame U a infilenames w) as (_ & _ & _ & Hw).
    destruct (print_text U a infilenames w) as [[] w1|e w1]; simpl in Hw; [|exact Hw].
    destruct (nonempty (urls a) && negb (html a)); simpl; exact Hw.
  - apply write_files_frame.
  - unfold write_files. simpl. rewrite Hprint.
    assert (E : forall l w0, print_text U (set_text (set_pdf a false) false) l w0
                             = print_text U a l w0).
    { induction l as [|f l IH]; intro w0; cbn [print_text]; [reflexivity|].
      unfold bind. unfold get_parsed_text.
      destruct (parsed_text U f); [|reflexivity].
      unfold ret at 1 3.
      destruct (_ w0) as [[] w1|e w1]; [apply IH | reflexivity]. }
    unfold bind. rewrite E. reflexivity.
Qed.

Lemma write_files_print_wins_witness :
  let U := Run.collab ["notes.html"] [] 0 None in
  let a := mkArgs ["notes.html"] (Some []) true false false true true
                  true false None false ["notes.html"] [] in
  print_ a = true /\
  written (world_of (write_files U a ["notes.html"] "notes" Run.world0)) = [] /\
  stdout (world_of (write_files U a ["notes.html"] "notes" Run.world0))
    = ["text"; ""].
Proof.
  intros U a. split; [reflexivity|]. split.
  - exact (proj1 (write_files_print_wins U a ["notes.html"] "notes" Run.world0
                    eq_refl)).
  - reflexivity.
Defined.

(** X2: without the print flag and with the pdf flag, [write_files] hands
    the inputs to the PDF writer even when the text flag is set as well;
    when that writer succeeds, the one artifact added is the PDF under the
    name completed with ['.pdf']. *)
Theorem write_files_pdf_before_text
        (U : Collab) (a : Args) (infilenames : list string)
        (outfilename : string) (w : World)
        (Hprint : print_ a = false) (Hpdf : pdf a = true)
        (Hok : pdf_writer U infilenames (pdf_outfilename outfilename) = None) :
  exists w',
    write_files U a infilenames outfilename w = Ok tt w' /\
    written w' =
      written w ++ [(PdfFile, pdf_outfilename outfilename, infilenames)] /\
    stdout w' = stdout w /\ stderr w' = stderr w /\ cwd w' = cwd w.
Proof.
  unfold write_files, bind. rewrite Hprint, Hpdf.
  change (write_to_pdf U a infilenames outfilename w)
    with (write_to U PdfFile a infilenames outfilename w).
  rewrite write_to_eq. simpl. rewrite Hok.
  destruct (nonempty (urls a) && negb (html a)); simpl;
    eexists; split; try reflexivity; simpl; auto.
Qed.

Lemma write_files_pdf_before_text_witness :
  let U := Run.collab ["notes.html"] [] 0 None in
  let a := mkArgs ["notes.html"] (Some []) true false false true true
                  false false None false ["notes.html"] [] in
  exists w',
    write_files U a ["notes.html"] "notes" Run.world0 = Ok tt w' /\
    written w' = [(PdfFile, "notes.pdf", ["notes.html"])] /\
    stdout w' = [] /\ stderr w' = [] /\ cwd w' = "/work".
Proof.
  intros U a.
  exact (write_files_pdf_before_text U a ["notes.html"] "notes" Run.world0
           eq_refl eq_refl eq_refl).
Defined.

Lemma convert_ok_keeps_parts (U : Collab) (a : Args) (infs : list string)
      (o : string) (w w1 : World) :
  (if print_ a then print_text U a infs
   else if pdf a then write_to_pdf U a infs o
   else if text a then write_to_text U a infs o
   else ret tt) w = Ok tt w1 ->
  parts w1 = parts w /\ cwd w1 = cwd w.
Proof.
  destruct (print_ a).
  - intro E. destruct (print_text_frame U a infs w) as (H1 & H2 & _).
    rewrite E in H1, H2. simpl in H1, H2. auto.
  - destruct (pdf a).
    + change (write_to_pdf U a infs o w) with (write_to U PdfFile a infs o w).
      rewrite write_to_eq.
      destruct (writer_error U PdfFile infs o); [discriminate|].
      intro E. injection E as <-. simpl. auto.
    + destruct (text a).
      * change (write_to_text U a infs o w) with (write_to U TextFile a infs o w).
        rewrite write_to_eq.
        destruct (writer_error U TextFile infs o); [discriminate|].
        intro E. injection E as <-. simpl. auto.
      * intro E. injection E as <-. auto.
Qed.

(** X3: when [write_files] returns, the working directory is the one it
    started in, and it holds no part file if the url set is non-empty and
    HTML was not requested; otherwise it holds as many part files as
    before. *)
Theorem write_files_part_files_after_success
        (U : Collab) (a : Args) (infilenames : list string)
        (outfilename : string) (w w' : World)
        (Hok : write_files U a infilenames outfilename w = Ok tt w') :
  cwd w' = cwd w /\
  num_part_files w' =
    (if nonempty (urls a) && negb (html a) then 0 else num_part_files w).
Proof.
  unfold write_files, bind in Hok.
  destruct ((if print_ a then print_text U a infilenames
             else if pdf a then write_to_pdf U a infilenames outfilename
             else if text a then write_to_text U a infilenames outfilename
             else ret tt) w) as [[] w1|e w1] eqn:E; [|discriminate].
  destruct (convert_ok_keeps_parts U a infilenames outfilename w w1 E) as (Hp & Hc).
  destruct (nonempty (urls a) && negb (html a)).
  - destruct (remove_part_files_ok w1) as (w2 & E2 & H0 & Hc2 & _).
    rewrite E2 in Hok. injection Hok as <-. split; [congruence | exact H0].
  - injection Hok as <-. unfold num_part_files. rewrite Hp, Hc. auto.
Qed.

Lemma write_files_part_files_after_success_witness :
  let U := Run.collab [] ["http://a.com"] 0 None in
  let a := mkArgs ["http://a.com"] (Some []) true false false false true
                  false false None false [] ["http://a.com"] in
  let w := mkWorld "/work" [("/work", 3)] [] [] [] in
  exists w',
    write_files U a ["PART1.html"; "PART2.html"; "PART3.html"] "a" w = Ok tt w' /\
    cwd w' = "/work" /\ num_part_files w' = 0.
Proof.
  intros U a w. eexists. split; [reflexivity|].
  exact (write_files_part_files_after_success U a
           ["PART1.html"; "PART2.html"; "PART3.html"] "a" w _ eq_refl).
Defined.

(** X4: with an empty url set [write_files] never removes a part file,
    whether it returns or raises: the part files of every directory are
    what they were. *)
Theorem write_files_local_inputs_keep_part_files
        (U : Collab) (a : Args) (infilenames : list string)
        (outfilename : string) (w : World)
        (Hlocal : urls a = []) :
  parts (world_of (write_files U a infilenames outfilename w)) = parts w.
Proof.
  unfold write_files, bind. rewrite Hlocal. simpl.
  destruct (print_ a).
  - destruct (print_text_frame U a infilenames w) as (_ & Hp & _).
    destruct (print_text U a infilenames w) as [[] w1|e w1]; exact Hp.
  - destruct (pdf a).
    + change (write_to_pdf U a infilenames outfilename w)
        with (write_to U PdfFile a infilenames outfilename w).
      rewrite write_to_eq, Hlocal.
      destruct (writer_error U PdfFile infilenames outfilename); reflexivity.
    + destruct (text a); [|reflexivity].
      change (write_to_text U a infilenames outfilename w)
        with (write_to U TextFile a infilenames outfilename w).
      rewrite write_to_eq, Hlocal.
      destruct (writer_error U TextFile infilenames outfilename); reflexivity.
Qed.

Lemma write_files_local_inputs_keep_part_files_witness :
  let U := Run.collab ["notes.html"] [] 0 (Some (Error "disk full")) in
  let a := mkArgs ["notes.html"] (Some []) true false false false true
                  false false None false ["notes.html"] [] in
  let w := mkWorld "/work" [("/work", 2)] [] [] [] in
  write_files U a ["notes.html"] "notes" w = Raise (Error "disk full") w /\
  parts (world_of (write_files U a ["notes.html"] "notes" w)) = [("/work", 2)].
Proof.
  intros U a w. split; [reflexivity|].
  exact (write_files_local_inputs_keep_part_files U a ["notes.html"] "notes" w
           eq_refl).
Defined.

(** X5: when the text of every input can be extracted, [print_text] prints,
    for each input in order, its lines followed by one empty line, and
    nothing at all for an input whose text is empty; it changes nothing
    but standard output. *)
Theorem print_text_output
        (U : Collab) (a : Args) (infilenames : list string) (w : World)
        (Hparsed : forallb (fun f => match parsed_text U f with
                                     | inl _ => true
                                     | inr _ => false
                                     end) infilenames = true) :
  print_text U a infilenames w =
    Ok tt (mkWorld (cwd w) (parts w)
             (stdout w ++
              flat_map (fun f => match parsed_text U f with
                                 | inl (l :: ls) => (l :: ls) ++ [EmptyString]
                                 | _ => []
                                 end) infilenames)
             (stderr w) (written w)).
Proof.
  revert w. induction infilenames as [|f infs IH]; intro w;
    cbn [print_text flat_map].
  - unfold ret. now rewrite app_nil_r, world_eta.
  - simpl in Hparsed. apply andb_true_iff in Hparsed. destruct Hparsed as [Hf Hrest].
    unfold bind, get_parsed_text.
    destruct (parsed_text U f) as [ls|e]; [|discriminate].
    unfold ret at 1. destruct ls as [|l ls]; cbn [nonempty].
    + unfold ret. rewrite (IH Hrest). reflexivity.
    + rewrite print_lines_eq. unfold print. rewrite (IH Hrest). simpl.
      now rewrite <- !app_assoc.
Qed.

Lemma print_text_output_witness :
  let U := mkCollab (fun _ => true) (fun _ => true) Run.get_domain
             Run.get_outfilename Run.add_url_ext Run.add_scheme Run.check_scheme
             (fun _ => None) (fun _ _ => (0, None))
             (fun f => if String.eqb f "empty.html" then inl []
                       else inl ["first"; "second"])
             (fun _ _ => None) (fun _ _ => None) (fun s => s) in
  let a := Run.cli ["a.html"; "empty.html"; "b.html"] None false false false false false in
  print_text U a ["a.html"; "empty.html"; "b.html"] Run.world0 =
    Ok tt (mkWorld "/work" []
                   ["first"; "second"; ""; "first"; "second"; ""] [] []).
Proof.
  intros U a.
  exact (print_text_output U a ["a.html"; "empty.html"; "b.html"] Run.world0
           eq_refl).
Defined.

(** ** Output names *)

Lemma split_nonempty (c : ascii) (s : string) : split c s <> [].
Proof.
  destruct s as [|a s]; simpl; [discriminate|].
  destruct (Ascii.eqb a c); [discriminate|].
  destruct (split c s); discriminate.
Qed.

Lemma split_app_sep (c : ascii) (s t : string) :
  split c (s ++ String c t) = split c s ++ split c t.
Proof.
  induction s as [|a s IH]; cbn [append split].
  - now rewrite Ascii.eqb_refl.
  - destruct (Ascii.eqb a c); [now rewrite IH|].
    rewrite IH.
    destruct (split c s) as [|h tl] eqn:E; [now apply split_nonempty in E|].
    reflexivity.
Qed.

Lemma join_split (c : ascii) (s : string) :
  join (String c EmptyString) (split c s) = s.
Proof.
  induction s as [|a s IH]; cbn [split]; [reflexivity|].
  destruct (Ascii.eqb a c) eqn:Eac.
  - apply Ascii.eqb_eq in Eac. subst a.
    destruct (split c s) as [|h tl] eqn:E; [now apply split_nonempty in E|].
    change (join (String c EmptyString) (EmptyString :: h :: tl))
      with (EmptyString ++ String c EmptyString
            ++ join (String c EmptyString) (h :: tl))%string.
    rewrite IH. reflexivity.
  - destruct (split c s) as [|h tl] eqn:E; [now apply split_nonempty in E|].
    destruct tl as [|h' tl'].
    + simpl in IH. simpl. now rewrite IH.
    + change (join (String c EmptyString) (String a h :: h' :: tl'))
        with (String a (h ++ String c EmptyString
                        ++ join (String c EmptyString) (h' :: tl')))%string.
      change (join (String c EmptyString) (h :: h' :: tl'))
        with (h ++ String c EmptyString
              ++ join (String c EmptyString) (h' :: tl'))%string in IH.
      now rewrite IH.
Qed.

(** X6: stripping the extension undoes adding one: for an extension without
    a ['.'], ['.'.join(name.split('.')[:-1])] applied to [stem + '.' + ext]
    is [stem], whatever dots [stem] holds. *)
Theorem strip_extension_of_stem_and_ext (stem ext : string)
        (Hext : contains "." ext = false) :
  strip_extension (stem ++ "." ++ ext) = stem.
Proof.
  unfold strip_extension.
  change (stem ++ "." ++ ext)%string with (stem ++ String "."%char ext)%string.
  rewrite split_app_sep, (split_without_sep _ _ Hext).
  unfold but_last. rewrite removelast_last. apply join_split.
Qed.

Lemma strip_extension_of_stem_and_ext_witness :
  contains "." "gz" = false /\
  strip_extension ("archive.tar" ++ "." ++ "gz") = "archive.tar".
Proof.
  split; [reflexivity|].
  exact (strip_extension_of_stem_and_ext "archive.tar" "gz" eq_refl).
Defined.

Lemma first_outfilename_skips (U : Collab) (a : Args) (pre rest : list string) :
  forallb (fun arg => negb (mem arg (files a)) &&
                      negb (existsb (fun url => contains (strip "/" arg) url)
                                    (urls a))) pre = true ->
  first_outfilename U a (pre ++ rest) = first_outfilename U a rest.
Proof.
  intro Hpre. induction pre as [|arg pre IH]; cbn [app first_outfilename];
    [reflexivity|].
  simpl in Hpre. apply andb_true_iff in Hpre. destruct Hpre as [Harg Hpre].
  apply andb_true_iff in Harg. destruct Harg as [Hnf Hnu].
  apply negb_true_iff in Hnf, Hnu.
  rewrite Hnf, (find_none_of_existsb _ _ Hnu). now apply IH.
Qed.

(** X7: when the first query item that is a known file or matches a known
    URL is a known file, [get_single_outfilename] returns its name without
    the last extension, lower-cased as [str.lower()] does, and writes
    nothing; a file is taken as a file even when a URL matches it too. *)
Theorem single_outfilename_of_local_file
        (U : Collab) (a : Args) (w : World)
        (pre : list string) (f : string) (post : list string)
        (Hquery : query a = pre ++ f :: post)
        (Hpre : forallb (fun arg =>
                   negb (mem arg (files a)) &&
                   negb (existsb (fun url => contains (strip "/" arg) url)
                                 (urls a))) pre = true)
        (Hfile : mem f (files a) = true) :
  get_single_outfilename U a w = Ok (str_lower U (strip_extension f)) w.
Proof.
  unfold get_single_outfilename.
  rewrite Hquery, (first_outfilename_skips U a pre (f :: post) Hpre).
  cbn [first_outfilename]. now rewrite Hfile.
Qed.

Lemma single_outfilename_of_local_file_witness :
  let U := Run.collab ["Report.Final.HTML"] [] 0 None in
  let a := mkArgs ["ghost"; "Report.Final.HTML"] (Some []) true false false
                  false true false false None false
                  ["Report.Final.HTML"] ["http://example.com"] in
  get_single_outfilename U a Run.world0 = Ok "report.final" Run.world0.
Proof.
  intros U a.
  exact (single_outfilename_of_local_file U a Run.world0
           ["ghost"] "Report.Final.HTML" [] eq_refl eq_refl eq_refl).
Defined.

(** X8: when no query item is a known file or matches a known URL,
    [get_single_outfilename] returns the empty name and writes the one
    line ['Failed to construct a single out filename.'] to standard
    error. *)
Theorem single_outfilename_without_match
        (U : Collab) (a : Args) (w : World)
        (Hnone : forallb (fun arg =>
                   negb (mem arg (files a)) &&
                   negb (existsb (fun url => contains (strip "/" arg) url)
                                 (urls a))) (query a) = true) :
  get_single_outfilename U a w =
    Ok EmptyString
       (mkWorld (cwd w) (parts w) (stdout w)
                (stderr w ++ [("Failed to construct a single out filename." ++ nl)%string])
                (written w)).
Proof.
  unfold get_single_outfilename.
  pose proof (first_outfilename_skips U a (query a) [] Hnone) as E.
  rewrite app_nil_r in E. rewrite E. reflexivity.
Qed.

Lemma single_outfilename_without_match_witness :
  let U := Run.collab [] [] 0 None in
  let a := mkArgs ["ghost"] (Some []) true false false false true
                  false false None false ["notes.html"] ["http://example.com"] in
  get_single_outfilename U a Run.world0 =
    Ok EmptyString
       (mkWorld "/work" [] []
                [("Failed to construct a single out filename." ++ nl)%string] []).
Proof.
  intros U a.
  exact (single_outfilename_without_match U a Run.world0 eq_refl).
Defined.

(** X9: when the first query item that is a known file or matches a known
    URL is not a known file, [get_single_outfilename] takes the first known
    URL that holds the item, stripped of its slashes, as a substring, and
    returns the name [utils.get_outfilename] derives from that URL and its
    domain.  The match is by substring, not by equality. *)
Theorem single_outfilename_of_url
        (U : Collab) (a : Args) (w : World)
        (pre : list string) (arg : string) (post : list string)
        (before : list string) (url : string) (after : list string)
        (Hquery : query a = pre ++ arg :: post)
        (Hpre : forallb (fun arg =>
                   negb (mem arg (files a)) &&
                   negb (existsb (fun url => contains (strip "/" arg) url)
                                 (urls a))) pre = true)
        (Hnofile : mem arg (files a) = false)
        (Hurls : urls a = before ++ url :: after)
        (Hbefore : existsb (fun url => contains (strip "/" arg) url) before = false)
        (Hmatch : contains (strip "/" arg) url = true) :
  get_single_outfilename U a w =
    Ok (get_outfilename U url (get_domain U url)) w.
Proof.
  unfold get_single_outfilename.
  rewrite Hquery, (first_outfilename_skips U a pre (arg :: post) Hpre).
  cbn [first_outfilename]. rewrite Hnofile, Hurls.
  assert (E : find (fun url0 => contains (strip "/" arg) url0)
                   (before ++ url :: after) = Some url).
  { clear Hurls. induction before as [|b before IH]; simpl.
    - now rewrite Hmatch.
    - simpl in Hbefore. apply orb_false_iff in Hbefore.
      destruct Hbefore as [Hb Hrest]. rewrite Hb. now apply IH. }
  now rewrite E.
Qed.

Lemma single_outfilename_of_url_witness :
  let U := Run.collab [] [] 0 None in
  let a := mkArgs ["/example/"] (Some []) true false false false true
                  false false None false []
                  ["http://other.org"; "http://example.com"] in
  get_single_outfilename U a Run.world0 = Ok "example.com" Run.world0.
Proof.
  intros U a.
  exact (single_outfilename_of_url U a Run.world0 [] "/example/" []
           ["http://other.org"] "http://example.com" []
           eq_refl eq_refl eq_refl eq_refl eq_refl eq_refl).
Defined.

(** ** Runs over local files *)

Lemma gather_local (U : Collab) (a : Args) (d : string) (qs : list string) :
  urls a = [] ->
  forall infs w,
    gather U a d qs infs w =
      Ok (Some (infs ++ filter (fun q => mem q (files a)) qs)) w.
Proof.
  intro Hu. induction qs as [|q qs IH]; intros infs w; cbn [gather filter].
  - unfold ret. now rewrite app_nil_r.
  - rewrite Hu. cbn [mem existsb].
    destruct (mem q (files a)).
    + rewrite IH, <- app_assoc. reflexivity.
    + apply IH.
Qed.

Lemma single_inputs_local (U : Collab) (a : Args) (w : World) :
  urls a = [] ->
  single_inputs U a w = Ok (Some (filter (fun q => mem q (files a)) (query a))) w.
Proof.
  intro Hu. unfold single_inputs, bind. rewrite Hu. cbn [nonempty].
  unfold ret at 1. now rewrite (gather_local U a _ _ Hu).
Qed.

Lemma first_outfilename_local (U : Collab) (a : Args) (qs : list string) :
  urls a = [] ->
  first_outfilename U a qs =
    match filter (fun q => mem q (files a)) qs with
    | f :: _ => Some (str_lower U (strip_extension f))
    | [] => None
    end.
Proof.
  intro Hu. induction qs as [|q qs IH]; cbn [first_outfilename filter];
    [reflexivity|].
  destruct (mem q (files a)); [reflexivity|].
  rewrite Hu. simpl. exact IH.
Qed.

Lemma write_files_text_local (U : Collab) (a : Args) (infs : list string)
      (o : string) (w : World) :
  urls a = [] -> print_ a = false -> pdf a = false -> text a = true ->
  text_writer U infs (text_outfilename o) = None ->
  write_files U a infs o w =
    Ok tt (add_artifact (TextFile, text_outfilename o, infs) w).
Proof.
  intros Hu Hp Hd Ht Hok. unfold write_files, bind.
  rewrite Hp, Hd, Ht, Hu.
  change (write_to_text U a infs o w) with (write_to U TextFile a infs o w).
  rewrite write_to_eq. simpl. rewrite Hok. reflexivity.
Qed.

Lemma write_single_file_local
        (U : Collab) (a : Args) (base_dir : string) (w : World)
        (f : string) (infs : list string)
        (Hlocal : urls a = [])
        (Hnohtml : html a = false) (Hnoprint : print_ a = false)
        (Hnopdf : pdf a = false) (Htext : text a = true)
        (Hinputs : filter (fun q => mem q (files a)) (query a) = f :: infs)
        (Hname : truthy (match out_list a with
                         | o :: _ => o
                         | [] => str_lower U (strip_extension f)
                         end) = true)
        (Hok : text_writer U (f :: infs)
                 (text_outfilename (match out_list a with
                                    | o :: _ => o
                                    | [] => str_lower U (strip_extension f)
                                    end)) = None) :
  write_single_file U a base_dir w =
    Ok true
       (add_artifact
          (TextFile,
           text_outfilename (match out_list a with
                             | o :: _ => o
                             | [] => str_lower U (strip_extension f)
                             end),
           f :: infs) w).
Proof.
  unfold write_single_file, bind.
  rewrite (single_inputs_local U a w Hlocal), Hinputs, Hnohtml.
  cbn [nonempty].
  destruct (out_list a) as [|o os] eqn:Eo; cbn [nonempty index nth].
  - unfold get_single_outfilename.
    rewrite (first_outfilename_local U a (query a) Hlocal), Hinputs.
    unfold ret at 1. rewrite Hname.
    rewrite (write_files_text_local U a _ _ w Hlocal Hnoprint Hnopdf Htext Hok).
    reflexivity.
  - unfold ret at 1. rewrite Hname.
    rewrite (write_files_text_local U a _ _ w Hlocal Hnoprint Hnopdf Htext Hok).
    reflexivity.
Qed.

(** X10: in single-file text mode over local files alone, with an output
    name that is not empty and a text writer that does not fail, every
    query item that is a known file goes, in query order, into one
    artifact.  The output name is the first explicit output name if there
    is one, and otherwise the name of the first input without its last
    extension, lower-cased as [str.lower()] does; it is completed with
    ['.txt'].  The run returns [True] and nothing else changes. *)
Theorem single_file_run_over_local_files
        (U : Collab) (a : Args) (base_dir : string) (w : World)
        (f : string) (infs : list string)
        (Hlocal : urls a = [])
        (Hnohtml : html a = false) (Hnoprint : print_ a = false)
        (Hnopdf : pdf a = false) (Htext : text a = true)
        (Hinputs : filter (fun q => mem q (files a)) (query a) = f :: infs)
        (Hname : truthy (match out_list a with
                         | o :: _ => o
                         | [] => str_lower U (strip_extension f)
                         end) = true)
        (Hok : text_writer U (f :: infs)
                 (text_outfilename (match out_list a with
                                    | o :: _ => o
                                    | [] => str_lower U (strip_extension f)
                                    end)) = None) :
  write_single_file U a base_dir w =
    Ok true
       (add_artifact
          (TextFile,
           text_outfilename (match out_list a with
                             | o :: _ => o
                             | [] => str_lower U (strip_extension f)
                             end),
           f :: infs) w).
Proof.
  exact (write_single_file_local U a base_dir w f infs Hlocal Hnohtml Hnoprint
           Hnopdf Htext Hinputs Hname Hok).
Qed.

Lemma single_file_run_over_local_files_witness :
  let U := Run.collab ["One.html"; "two.html"] [] 0 None in
  let a := mkArgs ["One.html"; "ghost"; "two.html"] (Some []) true false false
                  false true false false None false
                  ["One.html"; "two.html"] [] in
  write_single_file U a "/work" Run.world0 =
    Ok true (mkWorld "/work" [] [] []
               [(TextFile, "one.txt", ["One.html"; "two.html"])]).
Proof.
  intros U a.
  exact (single_file_run_over_local_files U a "/work" Run.world0
           "One.html" ["two.html"]
           eq_refl eq_refl eq_refl eq_refl eq_refl eq_refl eq_refl eq_refl).
Defined.

Lemma multiple_loop_local (U : Collab) (a : Args) (base_dir : string)
      (qs : list string) :
  urls a = [] -> print_ a = false -> pdf a = false -> text a = true ->
  (forall infs o, text_writer U infs o = None) ->
  forallb (fun q => mem q (files a)) qs = true ->
  forall i w,
    multiple_loop U a base_dir i qs w =
      Ok true
         (mkWorld (cwd w) (parts w) (stdout w) (stderr w)
            (written w ++
             map (fun iq =>
                    (TextFile,
                     text_outfilename
                       (multiple_outfilename a (fst iq) (strip_extension (snd iq))),
                     [snd iq]))
                 (combine (seq i (length qs)) qs))).
Proof.
  intros Hu Hp Hd Ht Hok. induction qs as [|q qs IH]; intros Hall i w.
  - simpl. unfold ret. now rewrite app_nil_r, world_eta.
  - simpl in Hall. apply andb_true_iff in Hall. destruct Hall as [Hq Hall].
    cbn [multiple_loop]. rewrite Hq. unfold bind.
    rewrite (write_files_text_local U a _ _ w Hu Hp Hd Ht (Hok _ _)).
    rewrite (IH Hall). simpl. now rewrite <- app_assoc.
Qed.

(** X11: in multiple-file text mode over local files alone, with a writer
    that does not fail, every query item yields an artifact of its own, in
    query order: the item is its only input, and its name is the output
    name given at the same position if there is one, and otherwise the item
    without its last extension (not lower-cased), completed with ['.txt'].
    The run returns [True] and changes nothing else. *)
Theorem multiple_file_run_over_local_files
        (U : Collab) (a : Args) (base_dir : string) (w : World)
        (Hlocal : urls a = [])
        (Hnoprint : print_ a = false) (Hnopdf : pdf a = false)
        (Htext : text a = true)
        (Hok : forall infs o, text_writer U infs o = None)
        (Hfiles : forallb (fun q => mem q (files a)) (query a) = true) :
  exists w',
    write_multiple_files U a base_dir w = Ok true w' /\
    written w' =
      written w ++
      map (fun iq =>
             (TextFile,
              text_outfilename
                (if Nat.ltb (fst iq) (length (out_list a))
                 then nth (fst iq) (out_list a) EmptyString
                 else strip_extension (snd iq)),
              [snd iq]))
          (combine (seq 0 (length (query a))) (query a)) /\
    length (written w') = length (written w) + length (query a) /\
    cwd w' = cwd w /\ parts w' = parts w /\
    stdout w' = stdout w /\ stderr w' = stderr w.
Proof.
  unfold write_multiple_files.
  rewrite (multiple_loop_local U a base_dir (query a)
             Hlocal Hnoprint Hnopdf Htext Hok Hfiles).
  eexists. split; [reflexivity|]. cbn [written cwd parts stdout stderr].
  split; [|split; [|auto]].
  - f_equal. apply map_ext. intros [i q]. unfold multiple_outfilename, index.
    cbn [fst snd].
    destruct (out_list a) as [|o os]; [|reflexivity].
    simpl. reflexivity.
  - rewrite length_app, length_map, length_combine, length_seq. lia.
Qed.

Lemma multiple_file_run_over_local_files_witness :
  let U := Run.collab ["One.html"; "two.tar.gz"] [] 0 None in
  let a := mkArgs ["One.html"; "two.tar.gz"] (Some ["first"]) false true false
                  false true false false None false
                  ["One.html"; "two.tar.gz"] [] in
  exists w',
    write_multiple_files U a "/work" Run.world0 = Ok true w' /\
    written w' =
      [] ++ [(TextFile, "first.txt", ["One.html"]);
             (TextFile, "two.tar.txt", ["two.tar.gz"])] /\
    length (written w') = 0 + 2 /\
    cwd w' = "/work" /\ parts w' = [] /\ stdout w' = [] /\ stderr w' = [].
Proof.
  intros U a.
  exact (multiple_file_run_over_local_files U a "/work" Run.world0
           eq_refl eq_refl eq_refl eq_refl (fun _ _ => eq_refl) eq_refl).
Defined.

(** ** Fetching *)

(** X12: a single-page fetch that returns content writes exactly one new
    part file in the working directory and yields its one name, numbered
    one above the part files that were there; nothing else changes. *)
Theorem fetch_page_writes_one_part_file
        (U : Collab) (a : Args) (q raw_resp : string) (w : World)
        (Hfetch : fetch U q = Some raw_resp) :
  exists w',
    fetch_page U a q w = Ok (Some [part_name (num_part_files w + 1)]) w' /\
    num_part_files w' = num_part_files w + 1 /\
    cwd w' = cwd w /\ stdout w' = stdout w /\
    stderr w' = stderr w /\ written w' = written w.
Proof.
  rewrite fetch_page_eq, Hfetch. eexists. split.
  - unfold get_part_filenames.
    replace (num_part_files w + 1 - num_part_files w) with 1 by lia.
    replace (S (num_part_files w)) with (num_part_files w + 1) by lia.
    reflexivity.
  - unfold num_part_files at 1. cbn [cwd parts set_parts stdout stderr written].
    rewrite count_in_set_count. repeat split; lia.
Qed.

Lemma fetch_page_writes_one_part_file_witness :
  let U := Run.collab [] ["http://a.com"] 0 None in
  let a := Run.cli ["http://a.com"] None true false false false true in
  let w := mkWorld "/work" [("/work", 2)] [] [] [] in
  exists w',
    fetch_page U a "http://a.com" w = Ok (Some ["PART3.html"]) w' /\
    num_part_files w' = 3 /\
    cwd w' = "/work" /\ stdout w' = [] /\ stderr w' = [] /\ written w' = [].
Proof.
  intros U a w.
  exact (fetch_page_writes_one_part_file U a "http://a.com" "<html></html>" w
           eq_refl).
Defined.

(** X13: in multiple-file mode outside HTML mode, a URL target whose crawl
    returns no part file is reported on standard error by the line
    ['Failed to retrieve content from <target>.'] and the loop goes on with
    the next target; no artifact is written for it and the part files are
    as many as before. *)
Theorem multiple_empty_crawl_is_reported
        (U : Collab) (a : Args) (base_dir : string) (i : nat)
        (q : string) (rest : list string) (w : World)
        (Hcrawl : crawling a = true) (Hnohtml : html a = false)
        (Hnofile : mem q (files a) = false) (Hurl : mem q (urls a) = true)
        (Hempty : crawl_run U q (get_domain U q) = (0, None)) :
  exists w1,
    multiple_loop U a base_dir i (q :: rest) w =
      multiple_loop U a base_dir (S i) rest w1 /\
    stderr w1 =
      stderr w ++ [("Failed to retrieve content from " ++ q ++ "." ++ nl)%string] /\
    written w1 = written w /\ stdout w1 = stdout w /\ cwd w1 = cwd w /\
    num_part_files w1 = num_part_files w.
Proof.
  cbn [multiple_loop]. rewrite Hnofile, Hurl, Hcrawl, Hnohtml.
  unfold bind at 1. unfold ret at 1.
  unfold bind at 1. unfold bind at 1. unfold crawl. rewrite Hempty.
  unfold ret at 1. unfold get_part_filenames.
  replace (num_part_files w + 0 - num_part_files w) with 0 by lia.
  cbn [seq map nonempty]. unfold bind, stderr_write.
  eexists. split; [reflexivity|].
  cbn [stderr written stdout cwd set_parts]. unfold num_part_files at 1.
  cbn [cwd parts set_parts]. rewrite count_in_set_count.
  repeat split; lia.
Qed.

Lemma multiple_empty_crawl_is_reported_witness :
  let U := Run.collab [] [] 0 None in
  let a := mkArgs ["http://a.com"] (Some []) false true false false true
                  false false None true [] ["http://a.com"] in
  exists w1,
    multiple_loop U a "/work" 0 ("http://a.com" :: []) Run.world0 =
      multiple_loop U a "/work" 1 [] w1 /\
    stderr w1 =
      [] ++ [("Failed to retrieve content from " ++ "http://a.com" ++ "." ++ nl)%string] /\
    written w1 = [] /\ stdout w1 = [] /\ cwd w1 = "/work" /\
    num_part_files w1 = 0.
Proof.
  intros U a.
  exact (multiple_empty_crawl_is_reported U a "/work" 0 "http://a.com" []
           Run.world0 eq_refl eq_refl eq_refl eq_refl eq_refl).
Defined.

(** ** Classification *)

Lemma detect_default_query (a : Args) :
  query (detect_mode (default_out a)) = query a /\
  html (detect_mode (default_out a)) = html a /\
  print_ (detect_mode (default_out a)) = print_ a /\
  pdf (detect_mode (default_out a)) = pdf a /\
  text (detect_mode (default_out a)) = text a /\
  out_list (detect_mode (default_out a)) = out_list a.
Proof.
  unfold detect_mode, default_out, out_list.
  destruct (out a) eqn:E; simpl;
    repeat match goal with |- context [if ?c then _ else _] => destruct c end;
    simpl; rewrite ?E; auto 10.
Qed.

(** X14: the classification of lines 278-284 splits the query in two
    without losing or reordering anything: the file set is the query items
    that are files on disk, in order, the url set is the other items, in
    order and stripped of leading and trailing slashes, and together they
    are as many as the query items. *)
Theorem classification_partitions_query (U : Collab) (a : Args) :
  files (split_query U a) = filter (isfile U) (query a) /\
  urls (split_query U a) =
    map (strip "/") (filter (fun q => negb (isfile U q)) (query a)) /\
  length (files (split_query U a)) + length (urls (split_query U a))
    = length (query a) /\
  query (split_query U a) = query a.
Proof.
  unfold split_query. rewrite classify_spec. cbn [app files urls query set_urls set_files].
  repeat split.
  rewrite length_map.
  induction (query a) as [|q qs IH]; simpl; [reflexivity|].
  destruct (isfile U q); simpl; lia.
Qed.

Lemma filter_all {A} (p : A -> bool) (l : list A) :
  forallb p l = true -> filter p l = l /\ filter (fun x => negb (p x)) l = [].
Proof.
  induction l as [|x l IH]; simpl; [auto|].
  intro H. apply andb_true_iff in H. destruct H as [Hx Hl].
  rewrite Hx. simpl. destruct (IH Hl) as [-> ->]. auto.
Qed.

Lemma prepare_local_only (U : Collab) (a : Args) :
  forallb (isfile U) (query a) = true ->
  prepare U a =
    set_urls (set_files (detect_mode (default_out a)) (query a)) [].
Proof.
  intro Hall. unfold prepare, split_query.
  destruct (detect_default_query a) as (Hq & _).
  rewrite Hq, classify_spec.
  destruct (filter_all _ _ Hall) as [-> ->]. reflexivity.
Qed.

Lemma drop_files_for_html_eq (a : Args) (w : World) :
  drop_files_for_html a w =
    if nonempty (files a) && html a
    then Ok (set_files a [])
            (mkWorld (cwd w) (parts w) (stdout w)
               (stderr w ++ [("Cannot convert local files to HTML." ++ nl)%string])
               (written w))
    else Ok a w.
Proof.
  unfold drop_files_for_html. now destruct (nonempty (files a) && html a).
Qed.

(** X15: a query of local files only is dispatched as it was given: the
    arguments handed to the writer hold the query unchanged, duplicates
    kept, and an empty url set; their file set is the whole query outside
    HTML mode, and empty in HTML mode, where lines 295-297 drop the
    files. *)
Theorem local_query_is_kept (U : Collab) (a : Args) (w : World)
        (Hall : forallb (isfile U) (query a) = true) :
  exists a' w',
    drop_files_for_html (prepare U a) w = Ok a' w' /\
    scrape U a w =
      match dispatch U a' (cwd w) w' with
      | Ok r w1 => Ok r w1
      | Raise e w1 => recover U a (cwd w) e w1
      end /\
    query a' = query a /\
    urls a' = [] /\
    files a' = (if html a then [] else query a).
Proof.
  destruct (detect_default_query a) as (Hq & Hh & _).
  rewrite scrape_eq. unfold bind.
  rewrite drop_files_for_html_eq, (prepare_local_only U a Hall).
  cbn [files html query urls set_urls set_files]. rewrite Hh.
  destruct (html a).
  - destruct (query a) as [|q qs] eqn:E; cbn [nonempty andb].
    + do 2 eexists. split; [reflexivity|]. split; [reflexivity|].
      cbn [files html query urls set_urls set_files]. rewrite Hq. auto.
    + do 2 eexists. split; [reflexivity|]. split; [reflexivity|].
      cbn [files html query urls set_urls set_files]. rewrite Hq. auto.
  - rewrite andb_false_r.
    do 2 eexists. split; [reflexivity|]. split; [reflexivity|].
    cbn [files html query urls set_urls set_files]. rewrite Hq. auto.
Qed.

Lemma local_query_is_kept_witness :
  let U := Run.collab ["a.html"; "b.html"] [] 0 None in
  let a := Run.cli ["a.html"; "b.html"; "a.html"] None false false true false false in
  exists a' w',
    drop_files_for_html (prepare U a) Run.world0 = Ok a' w' /\
    scrape U a Run.world0 =
      match dispatch U a' (cwd Run.world0) w' with
      | Ok r w1 => Ok r w1
      | Raise e w1 => recover U a (cwd Run.world0) e w1
      end /\
    query a' = ["a.html"; "b.html"; "a.html"] /\
    urls a' = [] /\
    files a' = [].
Proof.
  intros U a. exact (local_query_is_kept U a Run.world0 eq_refl).
Defined.

(** X16: as soon as one query item is not a file on disk, the rewritten
    query is built from the URL items alone: it has one item for each query
    item that is not a file, and none for the local files. *)
Theorem rewritten_query_counts_urls_only (U : Collab) (a : Args)
        (Hurl : existsb (fun q => negb (isfile U q)) (query a) = true) :
  length (query (prepare U a)) =
    length (filter (fun q => negb (isfile U q)) (query a)) /\
  length (query (prepare U a)) + length (files (prepare U a))
    = length (query a).
Proof.
  pose proof (prepare_query_length U a Hurl) as Hlen.
  split; [exact Hlen|]. rewrite Hlen.
  assert (Hf : files (prepare U a) = filter (isfile U) (query a)).
  { unfold prepare, complete_urls, split_query.
    destruct (detect_default_query a) as (Hq & _).
    rewrite Hq, classify_spec. cbn [app].
    destruct (nonempty _); reflexivity. }
  rewrite Hf.
  clear. induction (query a) as [|q qs IH]; simpl; [reflexivity|].
  destruct (isfile U q); simpl; lia.
Qed.

Lemma rewritten_query_counts_urls_only_witness :
  let U := Run.collab ["a.html"; "b.html"] [] 0 None in
  let a := Run.cli ["a.html"; "example.com"; "b.html"] None false false false false true in
  length (query (prepare U a)) = 1 /\
  length (query (prepare U a)) + length (files (prepare U a)) = 3.
Proof.
  intros U a. exact (rewritten_query_counts_urls_only U a eq_refl).
Defined.

(** ** What a whole run leaves as it was *)

Lemma preserves_ret {A X} (f : World -> X) (x : A) : preserves f (ret x).
Proof. intro w. reflexivity. Qed.

Lemma preserves_raise {A X} (f : World -> X) (e : exn) :
  preserves f (@raise A e).
Proof. intro w. reflexivity. Qed.

Lemma preserves_bind {A B X} (f : World -> X) (m : M A) (k : A -> M B) :
  preserves f m -> (forall x, preserves f (k x)) -> preserves f (bind m k).
Proof.
  intros Hm Hk w. unfold bind. specialize (Hm w).
  destruct (m w) as [x w1|e w1]; simpl in Hm.
  - rewrite (Hk x w1). exact Hm.
  - exact Hm.
Qed.

Lemma preserves_try {A X} (f : World -> X) (m : M A) (h : exn -> M A) :
  preserves f m -> (forall e, preserves f (h e)) -> preserves f (try_except m h).
Proof.
  intros Hm Hh w. unfold try_except. specialize (Hm w).
  destruct (m w) as [x w1|e w1]; simpl in Hm.
  - exact Hm.
  - rewrite (Hh e w1). exact Hm.
Qed.

Lemma preserves_cwd_print (l : string) : preserves cwd (print l).
Proof. intro w. reflexivity. Qed.

Lemma preserves_cwd_stderr_write (l : string) : preserves cwd (stderr_write l).
Proof. intro w. reflexivity. Qed.

Lemma preserves_cwd_remove_part_files : preserves cwd remove_part_files.
Proof. intro w. reflexivity. Qed.

Lemma preserves_cwd_write_files (U : Collab) (a : Args) (infs : list string)
      (o : string) :
  preserves cwd (write_files U a infs o).
Proof. intro w. apply write_files_frame. Qed.

Lemma preserves_cwd_gather (U : Collab) (a : Args) (d : string)
      (qs infs : list string) :
  preserves cwd (gather U a d qs infs).
Proof. intro w. apply gather_quiet. Qed.

Lemma preserves_cwd_fetch_page (U : Collab) (a : Args) (q : string) :
  preserves cwd (fetch_page U a q).
Proof. intro w. rewrite fetch_page_eq. now destruct (fetch U q). Qed.

Lemma preserves_cwd_crawl (U : Collab) (a : Args) (q d : string) :
  preserves cwd (crawl U a q d).
Proof. intro w. apply crawl_quiet. Qed.

Lemma preserves_cwd_get_single_outfilename (U : Collab) (a : Args) :
  preserves cwd (get_single_outfilename U a).
Proof.
  intro w. unfold get_single_outfilename.
  now destruct (first_outfilename U a (query a)).
Qed.

Lemma preserves_cwd_write_single_file (U : Collab) (a : Args) (base_dir : string) :
  html a = false -> preserves cwd (write_single_file U a base_dir).
Proof.
  intro Hh. unfold write_single_file, single_inputs. rewrite Hh.
  apply preserves_bind.
  - apply preserves_bind.
    + destruct (nonempty (urls a)); [|apply preserves_ret].
      apply preserves_bind; [apply preserves_ret | intro; apply preserves_ret].
    + intro d. apply preserves_cwd_gather.
  - intros [infs|]; [|apply preserves_ret].
    apply preserves_bind; [|intro; apply preserves_ret].
    destruct (nonempty infs); [|apply preserves_cwd_remove_part_files].
    apply preserves_bind.
    + destruct (nonempty (out_list a));
        [apply preserves_ret | apply preserves_cwd_get_single_outfilename].
    + intro o. destruct (truthy o);
        [apply preserves_cwd_write_files | apply preserves_ret].
Qed.

Lemma preserves_cwd_multiple_loop (U : Collab) (a : Args) (base_dir : string)
      (qs : list string) :
  html a = false -> forall i, preserves cwd (multiple_loop U a base_dir i qs).
Proof.
  intro Hh. induction qs as [|q qs IH]; intro i; cbn [multiple_loop].
  - apply preserves_ret.
  - destruct (mem q (files a)).
    { apply preserves_bind; [apply preserves_cwd_write_files | intro; apply IH]. }
    destruct (mem q (urls a)); [|apply IH].
    rewrite Hh. apply preserves_bind; [apply preserves_ret|]. intros _.
    apply preserves_bind.
    + destruct (crawling a); [|apply preserves_cwd_fetch_page].
      apply preserves_bind; [apply preserves_cwd_crawl | intro; apply preserves_ret].
    + intros [infs|]; [|apply preserves_ret].
      apply preserves_bind; [|intro; apply IH].
      destruct (nonempty infs);
        [apply preserves_cwd_write_files | apply preserves_cwd_stderr_write].
Qed.

(** X17: outside HTML mode a run never changes the working directory:
    whether [scrape] returns or raises, the process is in the directory it
    was started in. *)
Theorem non_html_run_keeps_working_directory
        (U : Collab) (a : Args) (w : World)
        (Hnohtml : html a = false) :
  cwd (world_of (scrape U a w)) = cwd w.
Proof.
  destruct (prepare_flags U a) as (_ & _ & Hh).
  rewrite scrape_eq. unfold bind. rewrite drop_files_for_html_eq, Hh, Hnohtml.
  rewrite andb_false_r.
  assert (Hd : preserves cwd (dispatch U (prepare U a) (cwd w))).
  { unfold dispatch. destruct (single (prepare U a)).
    - apply preserves_bind; [|intro; apply preserves_ret].
      apply preserves_cwd_write_single_file. congruence.
    - destruct (multiple (prepare U a)); [|apply preserves_ret].
      apply preserves_bind; [|intro; apply preserves_ret].
      apply preserves_cwd_multiple_loop. congruence. }
  specialize (Hd w).
  destruct (dispatch U (prepare U a) (cwd w) w) as [r w1|e w1]; simpl in Hd.
  - exact Hd.
  - unfold recover, bind. rewrite Hnohtml. simpl. exact Hd.
Qed.

Lemma non_html_run_keeps_working_directory_witness :
  let U := Run.collab [] ["http://a.com"] 2 (Some KeyboardInterrupt) in
  let a := mkArgs ["a.com"] None false false false true false
                  false false (Some ["."]) false [] [] in
  html a = false /\
  scrape U a Run.world0 =
    Raise KeyboardInterrupt (mkWorld "/work" [("/work", 0)] [] [] []) /\
  cwd (world_of (scrape U a Run.world0)) = cwd Run.world0.
Proof.
  intros U a. split; [reflexivity|]. split; [vm_compute; reflexivity|].
  exact (non_html_run_keeps_working_directory U a Run.world0 eq_refl).
Defined.

(** ** HTML mode *)

Lemma preserves_out_print (l : string) :
  preserves (fun w => (stderr w, written w)) (print l).
Proof. intro w. reflexivity. Qed.

Lemma preserves_out_enter_domain_dir (a : Args) (d : string) :
  preserves (fun w => (stderr w, written w)) (enter_domain_dir a d).
Proof.
  intro w. destruct (enter_domain_dir_quiet a d w) as (w1 & -> & He & Hw & _).
  simpl. now rewrite He, Hw.
Qed.

Lemma preserves_out_chdir (U : Collab) (d : string) :
  preserves (fun w => (stderr w, written w)) (chdir U d).
Proof. intro w. unfold chdir. now destruct (chdir_ok U d). Qed.

Lemma preserves_out_fetch_page (U : Collab) (a : Args) (q : string) :
  preserves (fun w => (stderr w, written w)) (fetch_page U a q).
Proof. intro w. rewrite fetch_page_eq. now destruct (fetch U q). Qed.

Lemma preserves_out_crawl (U : Collab) (a : Args) (q d : string) :
  preserves (fun w => (stderr w, written w)) (crawl U a q d).
Proof.
  intro w. destruct (crawl_quiet U a q d w) as (He & Hw & _).
  now rewrite He, Hw.
Qed.

Lemma preserves_out_single_inputs (U : Collab) (a : Args) :
  preserves (fun w => (stderr w, written w)) (single_inputs U a).
Proof.
  intro w. destruct (single_inputs_quiet U a w) as (He & Hw).
  now rewrite He, Hw.
Qed.

Lemma preserves_out_write_single_file_html
      (U : Collab) (a : Args) (base_dir : string) :
  html a = true ->
  preserves (fun w => (stderr w, written w)) (write_single_file U a base_dir).
Proof.
  intro Hh. unfold write_single_file. rewrite Hh.
  apply preserves_bind; [apply preserves_out_single_inputs|].
  intros [infs|]; [|apply preserves_ret].
  apply preserves_bind; [apply preserves_out_chdir | intro; apply preserves_ret].
Qed.

Lemma preserves_out_multiple_loop_html
      (U : Collab) (a : Args) (base_dir : string) (qs : list string) :
  html a = true -> files a = [] ->
  forall i,
    preserves (fun w => (stderr w, written w)) (multiple_loop U a base_dir i qs).
Proof.
  intros Hh Hf. induction qs as [|q qs IH]; intro i; cbn [multiple_loop].
  - apply preserves_ret.
  - rewrite Hf. cbn [mem existsb].
    destruct (mem q (urls a)); [|apply IH].
    rewrite Hh. apply preserves_bind; [apply preserves_out_enter_domain_dir|].
    intros _. apply preserves_bind.
    + destruct (crawling a); [|apply preserves_out_fetch_page].
      apply preserves_bind; [apply preserves_out_crawl | intro; apply preserves_ret].
    + intros [infs|]; [|apply preserves_ret].
      apply preserves_bind; [apply preserves_out_chdir | intro; apply IH].
Qed.

Lemma prepare_files (U : Collab) (a : Args) :
  files (prepare U a) = filter (isfile U) (query a).
Proof.
  unfold prepare, complete_urls, split_query.
  destruct (detect_default_query a) as (Hq & _).
  rewrite Hq, classify_spec. cbn [app].
  destruct (nonempty _); reflexivity.
Qed.

Lemma restore_dir_preserves_out (U : Collab) (base_dir : string) :
  preserves (fun w => (stderr w, written w)) (restore_dir U base_dir).
Proof.
  intro w. rewrite restore_dir_never_raises. now destruct (chdir_ok U base_dir).
Qed.

(** X18: in HTML mode a run never writes a text or PDF artifact, whether it
    returns or raises; and the only line it writes to standard error is
    ['Cannot convert local files to HTML.'], once, exactly when some query
    item is a file on disk. *)
Theorem html_run_writes_no_artifact
        (U : Collab) (a : Args) (w : World)
        (Hhtml : html a = true) :
  written (world_of (scrape U a w)) = written w /\
  stderr (world_of (scrape U a w)) =
    stderr w ++
    (if nonempty (filter (isfile U) (query a))
     then [("Cannot convert local files to HTML." ++ nl)%string] else []).
Proof.
  destruct (prepare_flags U a) as (_ & _ & Hh). rewrite Hhtml in Hh.
  rewrite scrape_eq. unfold bind.
  rewrite drop_files_for_html_eq, Hh, (prepare_files U a), andb_true_r.
  set (a' := if nonempty (filter (isfile U) (query a))
             then set_files (prepare U a) [] else prepare U a).
  set (w0 := if nonempty (filter (isfile U) (query a))
             then mkWorld (cwd w) (parts w) (stdout w)
                    (stderr w ++ [("Cannot convert local files to HTML." ++ nl)%string])
                    (written w)
             else w).
  assert (Ha : html a' = true /\ files a' = []).
  { unfold a'. destruct (nonempty (filter (isfile U) (query a))) eqn:E.
    - simpl. auto.
    - split; [exact Hh|]. rewrite (prepare_files U a).
      destruct (filter (isfile U) (query a)); [reflexivity | discriminate]. }
  destruct Ha as (Hh' & Hf').
  assert (Hd : preserves (fun w => (stderr w, written w))
                         (dispatch U a' (cwd w))).
  { unfold dispatch. destruct (single a').
    - apply preserves_bind; [|intro; apply preserves_ret].
      now apply preserves_out_write_single_file_html.
    - destruct (multiple a'); [|apply preserves_ret].
      apply preserves_bind; [|intro; apply preserves_ret].
      now apply preserves_out_multiple_loop_html. }
  assert (Hrun : (fun w1 => (stderr w1, written w1))
                   (world_of
                      (match dispatch U a' (cwd w) w0 with
                       | Ok r w' => Ok r w'
                       | Raise e w' => recover U a (cwd w) e w'
                       end)) = (stderr w0, written w0)).
  { specialize (Hd w0).
    destruct (dispatch U a' (cwd w) w0) as [r w1|e w1]; simpl in Hd |- *.
    - exact Hd.
    - unfold recover, bind. rewrite Hhtml.
      pose proof (restore_dir_preserves_out U (cwd w) w1) as Hr.
      destruct (restore_dir U (cwd w) w1) as [[] w2|e2 w2]; simpl in Hr |- *;
        congruence. }
  simpl in Hrun. injection Hrun as He Hw.
  unfold a', w0 in *.
  destruct (nonempty (filter (isfile U) (query a))); simpl in *.
  - rewrite He, Hw. auto.
  - rewrite He, Hw, app_nil_r. auto.
Qed.

Lemma html_run_writes_no_artifact_witness :
  let U := Run.collab ["notes.html"] ["http://a.com"] 0 None in
  let a := Run.cli ["notes.html"; "a.com"] None false false true false true in
  html a = true /\
  written (world_of (scrape U a Run.world0)) = [] /\
  stderr (world_of (scrape U a Run.world0)) =
    [("Cannot convert local files to HTML." ++ nl)%string].
Proof.
  intros U a. split; [reflexivity|].
  exact (html_run_writes_no_artifact U a Run.world0 eq_refl).
Defined.

Lemma bind_ok_inv {A B} (m : M A) (k : A -> M B) (w w' : World) (y : B) :
  bind m k w = Ok y w' ->
  exists x w1, m w = Ok x w1 /\ k x w1 = Ok y w'.
Proof.
  unfold bind. destruct (m w) as [x w1|e w1]; [eauto | discriminate].
Qed.

Lemma chdir_ok_inv (U : Collab) (d : string) (w w' : World) :
  chdir U d w = Ok tt w' -> cwd w' = d.
Proof.
  unfold chdir. destruct (chdir_ok U d); [|discriminate].
  intro E. injection E as <-. reflexivity.
Qed.

Lemma write_single_file_html_returns_home
      (U : Collab) (a : Args) (base_dir : string) (w w' : World) :
  html a = true ->
  write_single_file U a base_dir w = Ok true w' -> cwd w' = base_dir.
Proof.
  intros Hh E. unfold write_single_file in E. rewrite Hh in E.
  apply bind_ok_inv in E. destruct E as ([infs|] & w1 & _ & E).
  - apply bind_ok_inv in E. destruct E as ([] & w2 & Ec & E).
    injection E as <-. exact (chdir_ok_inv U base_dir w1 w2 Ec).
  - discriminate.
Qed.

Lemma multiple_loop_html_returns_home
      (U : Collab) (a : Args) (base_dir : string) (qs : list string) :
  html a = true ->
  forall i w w',
    cwd w = base_dir ->
    multiple_loop U a base_dir i qs w = Ok true w' -> cwd w' = base_dir.
Proof.
  intro Hh. induction qs as [|q qs IH]; intros i w w' Hc E;
    cbn [multiple_loop] in E.
  - injection E as <-. exact Hc.
  - destruct (mem q (files a)).
    { apply bind_ok_inv in E. destruct E as ([] & w1 & Ew & E).
      apply (IH _ _ _ (eq_trans
                         (eq_trans (f_equal cwd (f_equal world_of (eq_sym Ew)))
                                   (proj1 (write_files_frame U a [q] _ w)))
                         Hc) E). }
    destruct (mem q (urls a)); [|exact (IH _ _ _ Hc E)].
    rewrite Hh in E.
    apply bind_ok_inv in E. destruct E as ([] & w1 & _ & E).
    apply bind_ok_inv in E. destruct E as ([infs|] & w2 & _ & E);
      [|discriminate].
    apply bind_ok_inv in E. destruct E as ([] & w3 & Ec & E).
    exact (IH _ _ _ (chdir_ok_inv U base_dir w2 w3 Ec) E).
Qed.

(** X19: in HTML mode, a run that returns [True] ends in the directory it
    was started in, and so does a run that raises, provided the directory
    can be entered again. *)
Theorem html_run_returns_to_base_directory
        (U : Collab) (a : Args) (w : World)
        (Hhtml : html a = true) :
  (forall w', scrape U a w = Ok (Some true) w' -> cwd w' = cwd w) /\
  (chdir_ok U (cwd w) = true ->
   forall e w', scrape U a w = Raise e w' -> cwd w' = cwd w).
Proof.
  split.
  - intros w' E. rewrite scrape_eq in E. unfold bind in E.
    rewrite drop_files_for_html_eq in E.
    destruct (prepare_flags U a) as (_ & _ & Hh). rewrite Hhtml in Hh.
    set (a' := if nonempty (files (prepare U a)) && html (prepare U a)
               then set_files (prepare U a) [] else prepare U a) in *.
    assert (Ha : html a' = true).
    { unfold a'. destruct (nonempty (files (prepare U a)) && html (prepare U a));
        simpl; exact Hh. }
    assert (exists w0, cwd w0 = cwd w /\
              match dispatch U a' (cwd w) w0 with
              | Ok r w1 => Ok r w1
              | Raise e w1 => recover U a (cwd w) e w1
              end = Ok (Some true) w') as (w0 & Hc0 & E0).
    { unfold a'.
      destruct (nonempty (files (prepare U a)) && html (prepare U a));
        eexists; split; try exact E; reflexivity. }
    clear E. unfold dispatch in E0.
    destruct (single a').
    + unfold bind in E0.
      destruct (write_single_file U a' (cwd w) w0) as [b w1|e w1] eqn:Es.
      * injection E0 as -> <-.
        exact (write_single_file_html_returns_home U a' (cwd w) w0 w1 Ha Es).
      * unfold recover, bind in E0.
        destruct ((if html a then restore_dir U (cwd w) else remove_part_files) w1);
          discriminate.
    + destruct (multiple a').
      * unfold bind, write_multiple_files in E0.
        destruct (multiple_loop U a' (cwd w) 0 (query a') w0) as [b w1|e w1] eqn:Es.
        -- injection E0 as -> <-.
           exact (multiple_loop_html_returns_home U a' (cwd w) (query a') Ha
                    0 w0 w1 Hc0 Es).
        -- unfold recover, bind in E0.
           destruct ((if html a then restore_dir U (cwd w) else remove_part_files) w1);
             discriminate.
      * discriminate.
  - intros Hok e w' E.
    exact (scrape_failure_restores_dir U a w w' e Hhtml Hok E).
Qed.

Lemma html_run_returns_to_base_directory_witness :
  let U := Run.collab [] ["http://a.com"; "http://b.com"] 0 None in
  let a := Run.cli ["a.com"; "b.com"] None false false true false false in
  html a = true /\
  scrape U a Run.world0 =
    Ok (Some true)
       (mkWorld "/work" [("/work/b.com", 1); ("/work/a.com", 1)]
                ["Storing html files in a.com/"; "Storing html files in b.com/"]
                [] []) /\
  cwd (world_of (scrape U a Run.world0)) = "/work".
Proof.
  intros U a. split; [reflexivity|].
  assert (E : scrape U a Run.world0 =
    Ok (Some true)
       (mkWorld "/work" [("/work/b.com", 1); ("/work/a.com", 1)]
                ["Storing html files in a.com/"; "Storing html files in b.com/"]
                [] [])) by (vm_compute; reflexivity).
  split; [exact E|].
  rewrite E.
  exact (proj1 (html_run_returns_to_base_directory U a Run.world0 eq_refl) _ E).
Defined.

(** ** The handler of scrape *)

(** X20: [scrape] neither swallows nor replaces an exception, and leaves a
    normal return alone.  What its body returns it returns, in the same
    world; what its body raises it raises again, after removing the part
    files of the working directory outside HTML mode, and after going back
    to the base directory in HTML mode.  When going back fails, the failure
    is dropped and the exception of the body is raised in the world as it
    was. *)
Theorem scrape_reraises_after_cleanup (U : Collab) (a : Args) (w : World) :
  let body := a' <- drop_files_for_html (prepare U a) ;; dispatch U a' (cwd w) in
  (forall r w', body w = Ok r w' -> scrape U a w = Ok r w') /\
  (forall e w0, body w = Raise e w0 ->
     scrape U a w =
       Raise e (if html a
                then (if chdir_ok U (cwd w) then set_cwd (cwd w) w0 else w0)
                else world_of (remove_part_files w0))) /\
  (forall e w', scrape U a w = Raise e w' -> exists w0, body w = Raise e w0).
Proof.
  cbv zeta. repeat split.
  - intros r w' E. rewrite scrape_eq, E. reflexivity.
  - intros e w0 E. rewrite scrape_eq, E.
    unfold recover, bind. destruct (html a).
    + rewrite restore_dir_never_raises. reflexivity.
    + reflexivity.
  - intros e w' E. exact (scrape_reraises U a w w' e E).
Qed.

Lemma scrape_reraises_after_cleanup_witness :
  let U := mkCollab (fun _ => false) (fun _ => false) Run.get_domain
             Run.get_outfilename Run.add_url_ext Run.add_scheme Run.check_scheme
             (fun _ => None) (fun _ _ => (2, Some (Error "connection lost")))
             (fun _ => inl []) (fun _ _ => None) (fun _ _ => None)
             (fun s => s) in
  let a := mkArgs ["a.com"] None false false true false false
                  false true None true [] [] in
  scrape U a Run.world0 =
    Raise (Error "connection lost")
          (mkWorld "/work/a.com" [("/work/a.com", 2)] [] [] []).
Proof.
  intros U a.
  exact (proj1 (proj2 (scrape_reraises_after_cleanup U a Run.world0))
           (Error "connection lost")
           (mkWorld "/work/a.com" [("/work/a.com", 2)] [] [] [])
           eq_refl).
Defined.

(** X21: [scrape] always dispatches to one of the two writers: once the
    mode is detected at least one of the two flags is set, so a run that
    returns returns what a writer returned, [True] or [False], and never
    falls off the end of the function. *)
Theorem scrape_always_dispatches (U : Collab) (a : Args) (w : World) :
  (single (prepare U a) || multiple (prepare U a) = true) /\
  (forall r w', scrape U a w = Ok r w' -> exists b, r = Some b).
Proof.
  destruct (prepare_flags U a) as (Hs & Hm & _).
  destruct (detect_mode_flags (default_out a)) as (Ds & Dm).
  assert (Hflag : single (prepare U a) || multiple (prepare U a) = true).
  { rewrite Hs, Hm, Ds, Dm. clear.
    destruct (single (default_out a)), (multiple (default_out a)),
      (Nat.ltb 1 (length (query (default_out a)))
       || Nat.ltb 1 (length (out_list (default_out a)))); reflexivity. }
  split; [exact Hflag|].
  intros r w' E. rewrite scrape_eq in E. unfold bind in E.
  destruct (drop_files_for_html_flags (prepare U a) w) as (a' & w0 & E0 & Hs' & Hm').
  rewrite E0 in E. unfold dispatch in E. rewrite Hs', Hm' in E.
  destruct (single (prepare U a)).
  - unfold bind in E.
    destruct (write_single_file U a' (cwd w) w0) as [b w1|e w1].
    + injection E as <- _. eauto.
    + unfold recover, bind in E.
      destruct ((if html a then restore_dir U (cwd w) else remove_part_files) w1);
        discriminate.
  - simpl in Hflag. rewrite Hflag in E. unfold bind in E.
    destruct (write_multiple_files U a' (cwd w) w0) as [b w1|e w1].
    + injection E as <- _. eauto.
    + unfold recover, bind in E.
      destruct ((if html a then restore_dir U (cwd w) else remove_part_files) w1);
        discriminate.
Qed.

(** ** One local file, end to end *)

(** X22: a run over the one local file [stem.ext], whose extension holds no
    ['.'] and whose stem is not empty once lower-cased, with no multiple
    flag and no output name, in text mode and with a text writer that does
    not fail, writes the one artifact named by the stem, lower-cased as
    [str.lower()] does and completed with ['.txt'], from that file, returns
    [True] and changes nothing else; ['report.html'] gives
    ['report.txt']. *)
Theorem single_local_file_becomes_text_file
        (U : Collab) (a : Args) (w : World) (stem ext : string)
        (Hquery : query a = [(stem ++ "." ++ ext)%string])
        (Hfile : isfile U (stem ++ "." ++ ext) = true)
        (Hext : contains "." ext = false)
        (Hstem : truthy (str_lower U stem) = true)
        (Hout : out_list a = [])
        (Hmultiple : multiple a = false)
        (Hnohtml : html a = false) (Hnoprint : print_ a = false)
        (Hnopdf : pdf a = false) (Htext : text a = true)
        (Hok : text_writer U [(stem ++ "." ++ ext)%string]
                 (text_outfilename (str_lower U stem)) = None) :
  scrape U a w =
    Ok (Some true)
       (add_artifact
          (TextFile, text_outfilename (str_lower U stem), [(stem ++ "." ++ ext)%string])
          w).
Proof.
  assert (Hall : forallb (isfile U) (query a) = true)
    by (rewrite Hquery; cbn [forallb]; now rewrite Hfile).
  destruct (prepare_flags U a) as (Hs & _ & Hh).
  destruct (detect_mode_flags (default_out a)) as (Ds & _).
  destruct (detect_default_query a) as (Hq & _ & Hp & Hd & Ht & Ho).
  assert (Hsingle : single (prepare U a) = true).
  { rewrite Hs, Ds, out_list_default_out, Hout.
    assert (Em : multiple (default_out a) = false)
      by (unfold default_out; destruct (out a); exact Hmultiple).
    assert (Eq : query (default_out a) = query a)
      by (unfold default_out; now destruct (out a)).
    rewrite Em, Eq, Hquery. simpl. apply orb_true_r. }
  rewrite (scrape_dispatch_single U a w Hsingle).
  unfold scrape_via, bind, getcwd, try_except.
  rewrite drop_files_for_html_eq, Hh, Hnohtml, andb_false_r.
  pose proof (prepare_local_only U a Hall) as Hprep.
  assert (P1 : urls (prepare U a) = []) by (now rewrite Hprep).
  assert (P2 : html (prepare U a) = false) by congruence.
  assert (P3 : print_ (prepare U a) = false)
    by (rewrite Hprep; cbn [print_ set_urls set_files]; congruence).
  assert (P4 : pdf (prepare U a) = false)
    by (rewrite Hprep; cbn [pdf set_urls set_files]; congruence).
  assert (P5 : text (prepare U a) = true)
    by (rewrite Hprep; cbn [text set_urls set_files]; congruence).
  assert (P6 : out_list (prepare U a) = []).
  { rewrite Hprep. unfold out_list in *.
    cbn [out set_urls set_files]. congruence. }
  assert (P7 : filter (fun q => mem q (files (prepare U a))) (query (prepare U a))
               = [(stem ++ "." ++ ext)%string]).
  { rewrite Hprep. cbn [files query set_urls set_files]. rewrite Hq, Hquery.
    cbn [filter mem existsb]. now rewrite String.eqb_refl. }
  pose proof (write_single_file_local U (prepare U a) (cwd w) w
                (stem ++ "." ++ ext) [] P1 P2 P3 P4 P5 P7) as L.
  rewrite P6, (strip_extension_of_stem_and_ext stem ext Hext) in L.
  rewrite (L Hstem Hok). reflexivity.
Qed.

Lemma single_local_file_becomes_text_file_witness :
  let U := Run.collab ["report.html"] [] 0 None in
  let a := Run.cli ["report.html"] None false false false false true in
  scrape U a Run.world0 =
    Ok (Some true)
       (mkWorld "/work" [] [] [] [(TextFile, "report.txt", ["report.html"])]).
Proof.
  intros U a.
  exact (single_local_file_becomes_text_file U a Run.world0 "report" "html"
           eq_refl eq_refl eq_refl eq_refl eq_refl eq_refl eq_refl eq_refl
           eq_refl eq_refl eq_refl).
Defined.

(** ** The command line *)

Lemma while_invalid_valid (filetype : string) (stdin : list Answer) (w : World) :
  mem filetype valid_types = true ->
  while_invalid filetype stdin w = Ok (Some (filetype, stdin)) w.
Proof. intro H. destruct stdin; cbn [while_invalid]; now rewrite H. Qed.

Lemma while_invalid_until_valid (v : string) (rest : list Answer)
      (bad : list string) :
  mem (lower v) valid_types = true ->
  forallb (fun s => negb (mem (lower s) valid_types)) bad = true ->
  forall filetype w,
    mem filetype valid_types = false ->
    while_invalid filetype (map Line bad ++ Line v :: rest) w =
      Ok (Some (lower v, rest))
         (mkWorld (cwd w) (parts w)
                  (stdout w ++ repeat again_prompt (S (length bad)))
                  (stderr w) (written w)).
Proof.
  intros Hvalid. induction bad as [|s bad IH]; intros Hbad filetype w Hft.
  - cbn [map app while_invalid]. rewrite Hft. unfold bind, print.
    now rewrite (while_invalid_valid _ _ _ Hvalid).
  - cbn [forallb] in Hbad. apply andb_true_iff in Hbad. destruct Hbad as [Hs Hbad].
    apply negb_true_iff in Hs.
    cbn [map app while_invalid]. rewrite Hft. unfold bind, print.
    rewrite (IH Hbad (lower s) _ Hs).
    cbn [cwd parts stdout stderr written length repeat].
    rewrite <- app_assoc. reflexivity.
Qed.

Lemma while_invalid_gives_up (ending : list Answer) (bad : list string) :
  match ending with Line _ :: _ => false | _ => true end = true ->
  forallb (fun s => negb (mem (lower s) valid_types)) bad = true ->
  forall filetype w,
    mem filetype valid_types = false ->
    while_invalid filetype (map Line bad ++ ending) w =
      Ok None
         (mkWorld (cwd w) (parts w)
                  (stdout w ++ repeat again_prompt (S (length bad)))
                  (stderr w) (written w)).
Proof.
  intros Hend. induction bad as [|s bad IH]; intros Hbad filetype w Hft.
  - cbn [map app]. destruct ending as [|[s|] tail]; try discriminate;
      cbn [while_invalid]; rewrite Hft; reflexivity.
  - cbn [forallb] in Hbad. apply andb_true_iff in Hbad. destruct Hbad as [Hs Hbad].
    apply negb_true_iff in Hs.
    cbn [map app while_invalid]. rewrite Hft. unfold bind, print.
    rewrite (IH Hbad (lower s) _ Hs).
    cbn [cwd parts stdout stderr written length repeat].
    rewrite <- app_assoc. reflexivity.
Qed.

Lemma set_filetype_sets_a_format (a : Args) (filetype : string) :
  mem filetype valid_types = true ->
  print_ (set_filetype a filetype) || text (set_filetype a filetype)
  || pdf (set_filetype a filetype) || html (set_filetype a filetype) = true /\
  query (set_filetype a filetype) = query a /\
  out (set_filetype a filetype) = out a /\
  single (set_filetype a filetype) = single a /\
  multiple (set_filetype a filetype) = multiple a.
Proof.
  unfold set_filetype, valid_types. cbn [mem existsb].
  rewrite orb_false_r.
  destruct (String.eqb filetype "print") eqn:E1;
    [cbn; auto using orb_true_r|].
  destruct (String.eqb filetype "text") eqn:E2;
    [cbn; rewrite !orb_true_r; auto|].
  destruct (String.eqb filetype "pdf") eqn:E3;
    [cbn; rewrite !orb_true_r; auto|].
  destruct (String.eqb filetype "html") eqn:E4;
    [cbn; rewrite !orb_true_r; auto|].
  discriminate.
Qed.

(** X23: when no format flag was given, the user is asked for one until an
    answer is, in lower case, one of [print], [text], [pdf], [html]: the
    first prompt is followed by one ['Invalid entry'] prompt for each
    answer that is not, the first answer that is sets a format flag and
    leaves the other arguments alone, and the answers after it are left
    unread. *)
Theorem prompt_takes_first_valid_answer
        (c : CliArgs) (bad : list string) (v : string) (rest : list Answer)
        (w : World)
        (Hnoformat : print_ (core c) || text (core c) || pdf (core c)
                     || html (core c) = false)
        (Hbad : forallb (fun s => negb (mem (lower s) valid_types)) bad = true)
        (Hvalid : mem (lower v) valid_types = true) :
  resolve_filetype c (map Line bad ++ Line v :: rest) w =
    Ok (Some (mkCli (set_filetype (core c) (lower v)) (version c) (images c)
                    (no_images c), rest))
       (mkWorld (cwd w) (parts w)
                (stdout w ++ first_prompt :: repeat again_prompt (length bad))
                (stderr w) (written w)) /\
  print_ (set_filetype (core c) (lower v)) || text (set_filetype (core c) (lower v))
  || pdf (set_filetype (core c) (lower v)) || html (set_filetype (core c) (lower v))
    = true /\
  query (set_filetype (core c) (lower v)) = query (core c).
Proof.
  destruct (set_filetype_sets_a_format (core c) (lower v) Hvalid) as (Hset & Hq & _).
  split; [|split; assumption].
  unfold resolve_filetype. rewrite Hnoformat. cbn [negb].
  unfold choose_filetype, input.
  destruct bad as [|s bad].
  - cbn [map app length repeat]. unfold bind, print, ret.
    now rewrite (while_invalid_valid _ _ _ Hvalid).
  - cbn [forallb] in Hbad. apply andb_true_iff in Hbad. destruct Hbad as [Hs Hbad].
    apply negb_true_iff in Hs.
    cbn [map app]. unfold bind, print, ret.
    rewrite (while_invalid_until_valid v rest bad Hvalid Hbad (lower s) _ Hs).
    cbn [cwd parts stdout stderr written length repeat].
    rewrite <- app_assoc. reflexivity.
Qed.

Lemma prompt_takes_first_valid_answer_witness :
  let c := mkCli (Run.cli ["report.html"] None false false false false false)
                 false false false in
  resolve_filetype c (map Line ["doc"; ""] ++ Line "PDF" :: [Line "text"])
                   Run.world0 =
    Ok (Some (mkCli (Run.cli ["report.html"] None false false false true false)
                    false false false, [Line "text"]))
       (mkWorld "/work" []
                ([] ++ first_prompt :: repeat again_prompt 2) [] []).
Proof.
  intro c.
  exact (proj1 (prompt_takes_first_valid_answer c ["doc"; ""] "PDF"
                  [Line "text"] Run.world0 eq_refl eq_refl eq_refl)).
Defined.

(** X24: when no format flag was given and the terminal is closed or
    interrupted before a valid answer, [command_line_runner] returns
    without an error and without calling [scrape]: only the prompts were
    printed, and no file, part file, diagnostic or directory change was
    made. *)
Theorem runner_gives_up_without_scraping
        (U : Collab) (version_string help_text : string) (disable_imgs : bool)
        (confirm_input : string -> bool)
        (c : CliArgs) (bad : list string) (ending : list Answer) (w : World)
        (Hnoversion : version c = false)
        (Hquery : nonempty (query (core c)) = true)
        (Hnoformat : print_ (core c) || text (core c) || pdf (core c)
                     || html (core c) = false)
        (Hbad : forallb (fun s => negb (mem (lower s) valid_types)) bad = true)
        (Hending : match ending with Line _ :: _ => false | _ => true end = true) :
  command_line_runner U version_string help_text disable_imgs confirm_input
                      c (map Line bad ++ ending) w =
    Ok tt (mkWorld (cwd w) (parts w)
                   (stdout w ++ first_prompt :: repeat again_prompt (length bad))
                   (stderr w) (written w)).
Proof.
  unfold command_line_runner. rewrite Hnoversion, Hquery. cbn [negb].
  unfold resolve_filetype. rewrite Hnoformat. cbn [negb].
  unfold choose_filetype, input.
  destruct bad as [|s bad].
  - cbn [map app length repeat].
    destruct ending as [|[s|] tail]; try discriminate; reflexivity.
  - cbn [forallb] in Hbad. apply andb_true_iff in Hbad. destruct Hbad as [Hs Hbad].
    apply negb_true_iff in Hs.
    cbn [map app]. unfold bind, print, ret.
    rewrite (while_invalid_gives_up ending bad Hending Hbad (lower s) _ Hs).
    cbn [cwd parts stdout stderr written length repeat].
    rewrite <- app_assoc. reflexivity.
Qed.

Lemma runner_gives_up_without_scraping_witness :
  let U := Run.collab [] ["http://a.com"] 0 None in
  let c := mkCli (Run.cli ["a.com"] None false false false false false)
                 false false false in
  command_line_runner U "0.0" "usage" false (fun _ => true)
                      c (map Line ["doc"] ++ [CtrlC; Line "text"]) Run.world0 =
    Ok tt (mkWorld "/work" []
                   ([] ++ first_prompt :: repeat again_prompt 1) [] []).
Proof.
  intros U c.
  exact (runner_gives_up_without_scraping U "0.0" "usage" false (fun _ => true)
           c ["doc"] [CtrlC; Line "text"] Run.world0
           eq_refl eq_refl eq_refl eq_refl eq_refl).
Defined.

(** X25: with a query, a format flag and no question about images to ask
    (the output is neither PDF nor HTML, or nothing is crawled, or one of
    the image flags is set, or [SCRAPE_DISABLE_IMGS] is), the terminal is
    never read and nothing is printed by [command_line_runner] itself: the
    run is that of [scrape] on the arguments as given, whose exceptions it
    lets through and whose result it drops. *)
Theorem runner_without_questions_is_scrape
        (U : Collab) (version_string help_text : string) (disable_imgs : bool)
        (confirm_input : string -> bool)
        (c : CliArgs) (stdin : list Answer) (w : World)
        (Hnoversion : version c = false)
        (Hquery : nonempty (query (core c)) = true)
        (Hformat : print_ (core c) || text (core c) || pdf (core c)
                   || html (core c) = true)
        (Hnoask : (pdf (core c) || html (core c)) && crawling (core c)
                  && negb (images c) && negb (no_images c || disable_imgs)
                  = false) :
  command_line_runner U version_string help_text disable_imgs confirm_input
                      c stdin w =
    match scrape U (core c) w with
    | Ok _ w' => Ok tt w'
    | Raise e w' => Raise e w'
    end.
Proof.
  unfold command_line_runner. rewrite Hnoversion, Hquery. cbn [negb].
  unfold resolve_filetype. rewrite Hformat. cbn [negb].
  unfold bind at 1. unfold ret at 1.
  unfold resolve_images.
  destruct disable_imgs.
  - cbn [core images no_images].
    destruct ((pdf (core c) || html (core c)) && crawling (core c)).
    + rewrite andb_false_r. reflexivity.
    + reflexivity.
  - rewrite orb_false_r in Hnoask.
    destruct ((pdf (core c) || html (core c)) && crawling (core c)).
    + simpl in Hnoask. rewrite Hnoask. reflexivity.
    + reflexivity.
Qed.

Lemma runner_without_questions_is_scrape_witness :
  let U := Run.collab ["report.html"] [] 0 None in
  let c := mkCli (Run.cli ["report.html"] None false false false false true)
                 false false false in
  command_line_runner U "0.0" "usage" false (fun _ => true) c [CtrlC] Run.world0 =
    Ok tt (mkWorld "/work" [] [] [] [(TextFile, "report.txt", ["report.html"])]).
Proof.
  intros U c.
  exact (runner_without_questions_is_scrape U "0.0" "usage" false (fun _ => true)
           c [CtrlC] Run.world0 eq_refl eq_refl eq_refl eq_refl).
Defined.

(** X26: in a run with a query and no version flag, the question about
    images is asked when the output is PDF or HTML, a crawl is requested,
    neither image flag is set and [SCRAPE_DISABLE_IMGS] is not set.  An
    answer sets the images flag to [utils.confirm_input] of it and the
    no-images flag to the opposite, leaves the other arguments alone, and
    [scrape] is run on them; when the terminal is closed or interrupted
    instead, [command_line_runner] returns without calling [scrape],
    having printed the question and nothing else. *)
Theorem image_question_sets_one_flag
        (U : Collab) (version_string help_text : string)
        (disable_imgs : bool) (confirm_input : string -> bool)
        (c : CliArgs) (stdin : list Answer) (w : World)
        (Hnoversion : version c = false)
        (Hquery : nonempty (query (core c)) = true)
        (Hask : (pdf (core c) || html (core c)) && crawling (core c)
                && negb (images c) && negb (no_images c || disable_imgs) = true) :
  resolve_images disable_imgs confirm_input c stdin w =
    Ok (match stdin with
        | Line s :: _ =>
            Some (mkCli (core c) (version c) (confirm_input s)
                        (negb (confirm_input s)))
        | _ => None
        end)
       (mkWorld (cwd w) (parts w) (stdout w ++ [save_msg]) (stderr w) (written w)) /\
  command_line_runner U version_string help_text disable_imgs confirm_input
                      c stdin w =
    match stdin with
    | Line _ :: _ =>
        match scrape U (core c)
                (mkWorld (cwd w) (parts w) (stdout w ++ [save_msg]) (stderr w)
                         (written w)) with
        | Ok _ w' => Ok tt w'
        | Raise e w' => Raise e w'
        end
    | _ =>
        Ok tt (mkWorld (cwd w) (parts w) (stdout w ++ [save_msg]) (stderr w)
                       (written w))
    end.
Proof.
  assert (Hres : resolve_images disable_imgs confirm_input c stdin w =
    Ok (match stdin with
        | Line s :: _ =>
            Some (mkCli (core c) (version c) (confirm_input s)
                        (negb (confirm_input s)))
        | _ => None
        end)
       (mkWorld (cwd w) (parts w) (stdout w ++ [save_msg]) (stderr w) (written w))).
  { apply andb_true_iff in Hask. destruct Hask as [Hask Hno].
    apply andb_true_iff in Hask. destruct Hask as [Hcrawl Him].
    apply negb_true_iff in Hno. apply orb_false_iff in Hno. destruct Hno as [Hno Hd].
    subst disable_imgs. unfold resolve_images. rewrite Hcrawl, Him, Hno.
    cbn [negb andb]. unfold input. unfold bind, print, ret.
    destruct stdin as [|[s|] rest]; try reflexivity.
    cbv beta iota. destruct (confirm_input s); reflexivity. }
  split; [exact Hres|].
  assert (Hformat : print_ (core c) || text (core c) || pdf (core c)
                    || html (core c) = true).
  { apply andb_true_iff in Hask. destruct Hask as [Hask _].
    apply andb_true_iff in Hask. destruct Hask as [Hask _].
    apply andb_true_iff in Hask. destruct Hask as [Hask _].
    destruct (print_ (core c)), (text (core c)), (pdf (core c)), (html (core c));
      try reflexivity; discriminate. }
  unfold command_line_runner. rewrite Hnoversion, Hquery. cbn [negb].
  unfold resolve_filetype. rewrite Hformat. cbn [negb].
  unfold bind at 1. unfold ret at 1. unfold bind at 1. rewrite Hres.
  destruct stdin as [|[s|] rest]; try reflexivity.
Qed.

Lemma image_question_sets_one_flag_witness :
  let U := Run.collab [] [] 0 None in
  let a := mkArgs ["a.com"] None false false false true false
                  false false None true [] [] in
  let c := mkCli a false false false in
  let w1 := mkWorld "/work" [] ([] ++ [save_msg]) [] [] in
  (resolve_images false (fun s => String.eqb s "y") c [Line "n"] Run.world0 =
     Ok (Some (mkCli a false false true)) w1 /\
   command_line_runner U "0.0" "usage" false (fun s => String.eqb s "y")
                       c [Line "n"] Run.world0 =
     match scrape U a w1 with
     | Ok _ w' => Ok tt w'
     | Raise e w' => Raise e w'
     end) /\
  command_line_runner U "0.0" "usage" false (fun s => String.eqb s "y")
                      c [CtrlC] Run.world0 = Ok tt w1.
Proof.
  intros U a c w1. split.
  - exact (image_question_sets_one_flag U "0.0" "usage" false
             (fun s => String.eqb s "y") c [Line "n"] Run.world0
             eq_refl eq_refl eq_refl).
  - exact (proj2 (image_question_sets_one_flag U "0.0" "usage" false
                    (fun s => String.eqb s "y") c [CtrlC] Run.world0
                    eq_refl eq_refl eq_refl)).
Defined.

Lemma scrape_always_dispatches_witness :
  let U := Run.collab ["report.html"] [] 0 None in
  let a := Run.cli ["report.html"] None false false false false true in
  scrape U a Run.world0 =
    Ok (Some true)
       (mkWorld "/work" [] [] [] [(TextFile, "report.txt", ["report.html"])]) /\
  exists b, Some true = Some b.
Proof.
  intros U a.
  assert (E : scrape U a Run.world0 =
    Ok (Some true)
       (mkWorld "/work" [] [] [] [(TextFile, "report.txt", ["report.html"])]))
    by reflexivity.
  split; [exact E|].
  exact (proj2 (scrape_always_dispatches U a Run.world0) _ _ E).
Defined.

(** ** Runs over URLs *)

Lemma prefix_refl (s : string) : String.prefix s s = true.
Proof.
  induction s as [|c s IH]; simpl; [reflexivity|].
  destruct (ascii_dec c c); [exact IH | congruence].
Qed.

Lemma contains_refl (s : string) : contains s s = true.
Proof. destruct s; cbn [contains]; now rewrite prefix_refl. Qed.

(** X27: in single-file PDF mode, with an output name that is not empty
    and a PDF writer that does not fail, a crawl of the one URL that writes
    at least one page ends in one artifact made of all the part files the
    crawl wrote, in order.  The output name is the first explicit output
    name if there is one and the name derived from the URL otherwise; it is
    completed with ['.pdf'].  After the conversion the working directory
    holds no part file. *)
Theorem single_file_crawl_converts_and_cleans
        (U : Collab) (a : Args) (base_dir : string) (w : World)
        (q : string) (n : nat)
        (Hquery : query a = [q]) (Hurls : urls a = [q]) (Hfiles : files a = [])
        (Hstrip : strip "/" q = q)
        (Hcrawl : crawling a = true)
        (Hnohtml : html a = false) (Hnoprint : print_ a = false)
        (Hpdf : pdf a = true)
        (Hpages : crawl_run U q (get_domain U q) = (S n, None))
        (Hname : truthy (match out_list a with
                         | o :: _ => o
                         | [] => get_outfilename U q (get_domain U q)
                         end) = true)
        (Hok : forall infs o, pdf_writer U infs o = None) :
  exists w',
    write_single_file U a base_dir w = Ok true w' /\
    written w' =
      written w ++
      [(PdfFile,
        pdf_outfilename (match out_list a with
                         | o :: _ => o
                         | [] => get_outfilename U q (get_domain U q)
                         end),
        map part_name (seq (S (num_part_files w)) (S n)))] /\
    num_part_files w' = 0 /\
    cwd w' = cwd w /\ stderr w' = stderr w.
Proof.
  unfold write_single_file, single_inputs.
  rewrite Hurls, Hnohtml, Hquery. cbn [nonempty index nth gather].
  rewrite Hurls, Hstrip. cbn [mem existsb]. rewrite String.eqb_refl.
  cbn [orb]. rewrite Hcrawl.
  unfold bind at 1. unfold bind at 1. unfold bind at 1. unfold ret at 1 2.
  unfold bind at 1. unfold crawl. rewrite Hpages. unfold ret at 1.
  unfold get_part_filenames.
  replace (num_part_files w + S n - num_part_files w) with (S n) by lia.
  cbn [app seq map nonempty].
  set (w1 := set_parts (set_count (cwd w) (num_part_files w + S n) (parts w)) w).
  set (infs := part_name (S (num_part_files w))
               :: map part_name (seq (S (S (num_part_files w))) n)).
  assert (Hn : get_single_outfilename U a w1 =
               Ok (get_outfilename U q (get_domain U q)) w1).
  { unfold get_single_outfilename. rewrite Hquery. cbn [first_outfilename].
    rewrite Hfiles, Hurls, Hstrip. cbn [mem existsb find].
    now rewrite contains_refl. }
  assert (Hw : forall o,
             write_files U a infs o w1 =
               Ok tt (world_of (remove_part_files
                                  (add_artifact (PdfFile, pdf_outfilename o, infs) w1)))).
  { intro o. unfold write_files, bind. rewrite Hnoprint, Hpdf, Hurls, Hnohtml.
    change (write_to_pdf U a infs o w1) with (write_to U PdfFile a infs o w1).
    rewrite write_to_eq. cbn [writer_error]. rewrite Hok. reflexivity. }
  destruct (out_list a) as [|o os] eqn:Eo; cbn [nonempty index nth].
  - unfold bind at 1. unfold bind at 1. rewrite Hn, Hname, Hw.
    eexists. split; [reflexivity|].
    unfold num_part_files. cbn. rewrite String.eqb_refl. auto.
  - unfold bind at 1. unfold bind at 1. unfold ret at 1. rewrite Hname, Hw.
    eexists. split; [reflexivity|].
    unfold num_part_files. cbn. rewrite String.eqb_refl. auto.
Qed.

Lemma single_file_crawl_converts_and_cleans_witness :
  let U := Run.collab [] [] 3 None in
  let a := mkArgs ["http://a.com"] (Some []) true false false true false
                  false false None true [] ["http://a.com"] in
  exists w',
    write_single_file U a "/work" Run.world0 = Ok true w' /\
    written w' =
      [] ++ [(PdfFile, "a.com.pdf", ["PART1.html"; "PART2.html"; "PART3.html"])] /\
    num_part_files w' = 0 /\ cwd w' = "/work" /\ stderr w' = [].
Proof.
  intros U a.
  exact (single_file_crawl_converts_and_cleans U a "/work" Run.world0
           "http://a.com" 2 eq_refl eq_refl eq_refl eq_refl eq_refl eq_refl
           eq_refl eq_refl eq_refl eq_refl (fun _ _ => eq_refl)).
Defined.

(** X28: in multiple-file text mode outside HTML mode, a URL target whose
    page is fetched becomes an artifact of its own before the next target
    is looked at: its one input is the part file just written, its name is
    the output name at its position if there is one and the name derived
    from the URL otherwise, and the part files of the working directory are
    removed before the loop goes on. *)
Theorem multiple_url_target_is_converted_then_cleaned
        (U : Collab) (a : Args) (base_dir : string) (i : nat)
        (q raw_resp : string) (rest : list string) (w : World)
        (Hnocrawl : crawling a = false) (Hnohtml : html a = false)
        (Hnoprint : print_ a = false) (Hnopdf : pdf a = false)
        (Htext : text a = true)
        (Hnofile : mem q (files a) = false) (Hurl : mem q (urls a) = true)
        (Hfetch : fetch U q = Some raw_resp)
        (Hok : forall infs o, text_writer U infs o = None) :
  exists w1,
    multiple_loop U a base_dir i (q :: rest) w =
      multiple_loop U a base_dir (S i) rest w1 /\
    written w1 =
      written w ++
      [(TextFile,
        text_outfilename
          (multiple_outfilename a i (get_outfilename U q (get_domain U q))),
        [part_name (num_part_files w + 1)])] /\
    num_part_files w1 = 0 /\
    cwd w1 = cwd w /\ stderr w1 = stderr w /\ stdout w1 = stdout w.
Proof.
  assert (Hne : nonempty (urls a) = true).
  { destruct (urls a); [discriminate | reflexivity]. }
  cbn [multiple_loop]. rewrite Hnofile, Hurl, Hnocrawl, Hnohtml.
  unfold bind at 1. unfold ret at 1.
  unfold bind at 1. rewrite fetch_page_eq, Hfetch.
  unfold get_part_filenames.
  replace (num_part_files w + 1 - num_part_files w) with 1 by lia.
  cbn [seq map nonempty].
  unfold bind at 1. unfold write_files, bind at 1.
  rewrite Hnoprint, Hnopdf, Htext, Hne, Hnohtml.
  match goal with |- context [write_to_text U a ?l ?o ?w0] =>
    change (write_to_text U a l o w0) with (write_to U TextFile a l o w0) end.
  rewrite write_to_eq. cbn [writer_error]. rewrite Hok.
  cbn [negb andb]. unfold remove_part_files at 1.
  eexists. split; [reflexivity|].
  unfold num_part_files at 1. cbn.  rewrite String.eqb_refl.
  replace (num_part_files w + 1) with (S (num_part_files w)) by lia.
  auto 10.
Qed.

Lemma multiple_url_target_is_converted_then_cleaned_witness :
  let U := Run.collab [] ["http://a.com"] 0 None in
  let a := mkArgs ["http://a.com"; "http://b.com"] (Some []) false true false
                  false true false false None false []
                  ["http://a.com"; "http://b.com"] in
  exists w1,
    multiple_loop U a "/work" 0 ("http://a.com" :: ["http://b.com"]) Run.world0 =
      multiple_loop U a "/work" 1 ["http://b.com"] w1 /\
    written w1 = [] ++ [(TextFile, "a.com.txt", [part_name (0 + 1)])] /\
    num_part_files w1 = 0 /\
    cwd w1 = "/work" /\ stderr w1 = [] /\ stdout w1 = [].
Proof.
  intros U a.
  exact (multiple_url_target_is_converted_then_cleaned U a "/work" 0
           "http://a.com" "<html></html>" ["http://b.com"] Run.world0
           eq_refl eq_refl eq_refl eq_refl eq_refl eq_refl eq_refl eq_refl
           (fun _ _ => eq_refl)).
Defined.

(** X29: in single-file mode outside HTML mode, a run that gathers no input
    file at all (an empty query, or query items that are neither known
    files nor known URLs) writes nothing, removes the part files of the
    working directory all the same and returns [True]. *)
Theorem single_file_run_without_inputs
        (U : Collab) (a : Args) (base_dir : string) (w : World)
        (Hlocal : urls a = []) (Hnohtml : html a = false)
        (Hnone : forallb (fun q => negb (mem q (files a))) (query a) = true) :
  write_single_file U a base_dir w = Ok true (world_of (remove_part_files w)) /\
  num_part_files (world_of (remove_part_files w)) = 0 /\
  written (world_of (remove_part_files w)) = written w /\
  stderr (world_of (remove_part_files w)) = stderr w.
Proof.
  split.
  - unfold write_single_file, bind.
    rewrite (single_inputs_local U a w Hlocal), Hnohtml.
    assert (E : filter (fun q => mem q (files a)) (query a) = []).
    { induction (query a) as [|q qs IH]; [reflexivity|].
      cbn [forallb] in Hnone. apply andb_true_iff in Hnone.
      destruct Hnone as [Hq Hqs]. apply negb_true_iff in Hq.
      cbn [filter]. rewrite Hq. now apply IH. }
    rewrite E. reflexivity.
  - destruct (remove_part_files_ok w) as (w' & -> & H0 & _ & _ & He & Hw).
    simpl. auto.
Qed.

Lemma single_file_run_without_inputs_witness :
  let U := Run.collab [] [] 0 None in
  let a := mkArgs [] (Some []) true false false false true
                  false false None false [] [] in
  let w := mkWorld "/work" [("/work", 4)] [] [] [] in
  write_single_file U a "/work" w = Ok true (world_of (remove_part_files w)) /\
  num_part_files (world_of (remove_part_files w)) = 0 /\
  written (world_of (remove_part_files w)) = [] /\
  stderr (world_of (remove_part_files w)) = [].
Proof.
  intros U a w.
  exact (single_file_run_without_inputs U a "/work" w eq_refl eq_refl eq_refl).
Defined.
